(** * brainlabs/validate: the dynamic-value helpers of [util.go]

    A shallow embedding of the reflection-based helpers of package
    [validate] (file [util.go]) and the properties of its specification.

    Layout:
    - [result]: a Go call either returns or panics; [recover] is [catch];
    - [utf8], [strconv], [strings]: the pieces of the Go standard library
      the helpers call, on byte strings;
    - [reflect]: a tree model of [reflect.Value] with the accessors of
      package reflect, each panicking on the kinds Go panics on;
    - [validate]: the functions of [util.go], in source order; what they
      call outside this file ([fmt.Sprint], package mathutil, the unicode
      tables, [IsEqual], the code of a function value) is a parameter;
    - [mathutil]: the conversions of numbers, to run examples;
    - [util]: the other helpers of [util.go];
    - the notions of the specification, then the properties, first those
      of the specification, then further ones of the code.

    Conventions: [int] is 64 bits wide; a Go string is a Rocq [string], one
    [ascii] per byte; [int64] and [uint64] values are [Z] with the
    wrap-around of the conversions written out. *)

From Stdlib Require Import ZArith String Ascii List Bool Lia.
From Stdlib Require Import Floats.SpecFloat.
Import ListNotations.
Set Warnings "-register-all".
Local Open Scope string_scope.
Local Open Scope Z_scope.

(* ================================================================= *)
(** ** Panics and results *)

(** The value a panic carries. *)
Inductive PanicVal : Type :=
| ValueError (method : string) (kindName : string) (* *reflect.ValueError *)
| RuntimeError (msg : string)                       (* panic("...") *)
| CalleePanic (msg : string).                       (* raised by a called function *)

Inductive result (A : Type) : Type :=
| Ok (a : A)
| Panic (p : PanicVal).
Arguments Ok {A} a.
Arguments Panic {A} p.

Definition bind {A B : Type} (c : result A) (k : A -> result B) : result B :=
  match c with
  | Ok a => k a
  | Panic p => Panic p
  end.

Notation "x <- c ;; k" := (bind c (fun x => k))
  (at level 61, c at next level, right associativity).

(** [defer func() { if e := recover(); e != nil { ... } }()]: the deferred
    handler replaces the result when the body panicked. *)
Definition catch {A : Type} (body : result A) (handler : PanicVal -> A) : result A :=
  match body with
  | Ok a => Ok a
  | Panic p => Ok (handler p)
  end.

Definition panics {A : Type} (c : result A) : bool :=
  match c with
  | Ok _ => false
  | Panic _ => true
  end.

(* ================================================================= *)
(** ** Machine integers *)

Definition uint64 (z : Z) : Z := z mod 2 ^ 64.

Definition int64 (z : Z) : Z := (z + 2 ^ 63) mod 2 ^ 64 - 2 ^ 63.

Definition in_int64 (z : Z) : Prop := - 2 ^ 63 <= z < 2 ^ 63.

Definition in_uint64 (z : Z) : Prop := 0 <= z < 2 ^ 64.

(* ================================================================= *)
(** ** Package unicode/utf8 *)

Module utf8.

Definition RuneError : Z := 65533.

Definition byteZ (c : ascii) : Z := Z.of_N (N_of_ascii c).

Definition between (lo hi x : Z) : bool := (lo <=? x) && (x <=? hi).

(** Size of the encoding announced by the first byte with the range
    accepted for the second byte (tables [first] and [acceptRanges]);
    [None] for a byte that starts no multi-byte encoding. *)
Definition lead (b0 : Z) : option (nat * Z * Z) :=
  if between 194 223 b0 then Some (2%nat, 128, 191)
  else if b0 =? 224 then Some (3%nat, 160, 191)
  else if between 225 236 b0 then Some (3%nat, 128, 191)
  else if b0 =? 237 then Some (3%nat, 128, 159)
  else if between 238 239 b0 then Some (3%nat, 128, 191)
  else if b0 =? 240 then Some (4%nat, 144, 191)
  else if between 241 243 b0 then Some (4%nat, 128, 191)
  else if b0 =? 244 then Some (4%nat, 128, 143)
  else None.

Definition cont (b : Z) : bool := between 128 191 b.

(** [utf8.DecodeRuneInString]: the first rune of [s] and its width in
    bytes; an invalid or truncated encoding is [RuneError] of width 1. *)
Definition DecodeRuneInString (s : string) : Z * nat :=
  match s with
  | EmptyString => (RuneError, 0%nat)
  | String c0 r0 =>
      let b0 := byteZ c0 in
      if b0 <? 128 then (b0, 1%nat)
      else
        match lead b0 with
        | None => (RuneError, 1%nat)
        | Some (sz, lo, hi) =>
            match r0 with
            | EmptyString => (RuneError, 1%nat)
            | String c1 r1 =>
                let b1 := byteZ c1 in
                if negb (between lo hi b1) then (RuneError, 1%nat)
                else if (sz <=? 2)%nat
                then (Z.lor (Z.shiftl (Z.land b0 31) 6) (Z.land b1 63), 2%nat)
                else
                  match r1 with
                  | EmptyString => (RuneError, 1%nat)
                  | String c2 r2 =>
                      let b2 := byteZ c2 in
                      if negb (cont b2) then (RuneError, 1%nat)
                      else if (sz <=? 3)%nat
                      then (Z.lor (Z.lor (Z.shiftl (Z.land b0 15) 12)
                                         (Z.shiftl (Z.land b1 63) 6))
                                  (Z.land b2 63), 3%nat)
                      else
                        match r2 with
                        | EmptyString => (RuneError, 1%nat)
                        | String c3 _ =>
                            let b3 := byteZ c3 in
                            if negb (cont b3) then (RuneError, 1%nat)
                            else (Z.lor (Z.lor (Z.lor (Z.shiftl (Z.land b0 7) 18)
                                                      (Z.shiftl (Z.land b1 63) 12))
                                               (Z.shiftl (Z.land b2 63) 6))
                                        (Z.land b3 63), 4%nat)
                        end
                  end
            end
        end
  end.

(** [for i, r := range s]: the byte index and the value of every rune. *)
Fixpoint rangeFrom (i : Z) (s : string) {struct s} : list (Z * Z) :=
  match s with
  | EmptyString => []
  | String _ r0 =>
      let '(r, w) := DecodeRuneInString s in
      match w, r0 with
      | 2%nat, String _ r1 => (i, r) :: rangeFrom (i + 2) r1
      | 3%nat, String _ (String _ r2) => (i, r) :: rangeFrom (i + 3) r2
      | 4%nat, String _ (String _ (String _ r3)) => (i, r) :: rangeFrom (i + 4) r3
      | _, _ => (i, r) :: rangeFrom (i + 1) r0
      end
  end.

Definition range (s : string) : list (Z * Z) := rangeFrom 0 s.

(** [[]rune(s)] *)
Definition runes (s : string) : list Z := map snd (range s).

(** [len([]rune(s))], which is [utf8.RuneCountInString(s)]. *)
Definition RuneCountInString (s : string) : Z := Z.of_nat (List.length (runes s)).

End utf8.

(** [len(s)]: the number of bytes. *)
Definition len_string (s : string) : Z := Z.of_nat (String.length s).

(* ================================================================= *)
(** ** Package strconv *)

Module strconv.

Definition digitChar (d : Z) : ascii := ascii_of_N (Z.to_N (48 + d)).

(** The decimal digits of [u], most significant first, written in front
    of [acc] (the loop of [formatBits], one digit per turn). *)
Fixpoint digitsFrom (fuel : nat) (u : Z) (acc : string) : string :=
  match fuel with
  | O => acc
  | S fuel' =>
      let acc' := String (digitChar (u mod 10)) acc in
      if u / 10 =? 0 then acc' else digitsFrom fuel' (u / 10) acc'
  end.

(** A 64-bit magnitude has at most 20 decimal digits. *)
Definition maxDigits : nat := 20.

(** [strconv.FormatInt(i, 10)] for an [int64] [i]. *)
Definition FormatInt (i : Z) : string :=
  if i <? 0 then String "-" (digitsFrom maxDigits (- i) "")
  else digitsFrom maxDigits i "".

End strconv.

(* ================================================================= *)
(** ** Package strings *)

Module strings.

Fixpoint HasPrefix (s prefix : string) : bool :=
  match prefix, s with
  | EmptyString, _ => true
  | String p prefix', String c s' => Ascii.eqb p c && HasPrefix s' prefix'
  | String _ _, EmptyString => false
  end.

(** [strings.Contains(s, substr)] *)
Fixpoint Contains (s substr : string) : bool :=
  HasPrefix s substr
  || match s with
     | EmptyString => false
     | String _ s' => Contains s' substr
     end.

End strings.

(* ================================================================= *)
(** ** Package reflect

    A [Value] is a tree: what a pointer, slice, map or interface refers to
    is part of the value, so no two values share storage.  A value of a
    defined type ([type T U]) is [VNamed "T" u] with [u] a value of the
    underlying type; every accessor looks through the name, a type
    assertion does not.  Values are those of exported data, which
    [Interface] never refuses. *)

Module reflect.

Inductive Kind : Type :=
| Invalid | Bool
| Int | Int8 | Int16 | Int32 | Int64
| Uint | Uint8 | Uint16 | Uint32 | Uint64 | Uintptr
| Float32 | Float64 | Complex64 | Complex128
| Array | Chan | Func | Interface | Map | Ptr | Slice | String | Struct
| UnsafePointer.

Definition Kind_eqb (a b : Kind) : bool :=
  match a, b with
  | Invalid, Invalid | Bool, Bool
  | Int, Int | Int8, Int8 | Int16, Int16 | Int32, Int32 | Int64, Int64
  | Uint, Uint | Uint8, Uint8 | Uint16, Uint16 | Uint32, Uint32
  | Uint64, Uint64 | Uintptr, Uintptr
  | Float32, Float32 | Float64, Float64
  | Complex64, Complex64 | Complex128, Complex128
  | Array, Array | Chan, Chan | Func, Func | Interface, Interface
  | Map, Map | Ptr, Ptr | Slice, Slice | String, String | Struct, Struct
  | UnsafePointer, UnsafePointer => true
  | _, _ => false
  end.

(** [Kind.String()] *)
Definition Kind_String (k : Kind) : string :=
  match k with
  | Invalid => "invalid" | Bool => "bool"
  | Int => "int" | Int8 => "int8" | Int16 => "int16" | Int32 => "int32"
  | Int64 => "int64"
  | Uint => "uint" | Uint8 => "uint8" | Uint16 => "uint16"
  | Uint32 => "uint32" | Uint64 => "uint64" | Uintptr => "uintptr"
  | Float32 => "float32" | Float64 => "float64"
  | Complex64 => "complex64" | Complex128 => "complex128"
  | Array => "array" | Chan => "chan" | Func => "func"
  | Interface => "interface" | Map => "map" | Ptr => "ptr"
  | Slice => "slice" | String => "string" | Struct => "struct"
  | UnsafePointer => "unsafe.Pointer"
  end.

(** A [reflect.Type] as far as the helpers look at it: its identity (the
    package-qualified name) and its kind. *)
Record Type_ : Type := mkType { Type_Name : string; Type_Kind : Kind }.

Definition Type_eqb (a b : Type_) : bool :=
  String.eqb (Type_Name a) (Type_Name b) && Kind_eqb (Type_Kind a) (Type_Kind b).

(** The type of a function: [In(i)], [Out(i)], [IsVariadic()]. *)
Record FuncType : Type := mkFuncType {
  Ins : list Type_;
  Outs : list Type_;
  IsVariadic : bool
}.

Inductive IntSize : Type := I0 | I8 | I16 | I32 | I64.
Inductive UintSize : Type := U0 | U8 | U16 | U32 | U64 | Uptr.
Inductive FloatSize : Type := F32 | F64.
Inductive ComplexSize : Type := C64 | C128.

Definition IntKind (w : IntSize) : Kind :=
  match w with I0 => Int | I8 => Int8 | I16 => Int16 | I32 => Int32 | I64 => Int64 end.

Definition UintKind (w : UintSize) : Kind :=
  match w with
  | U0 => Uint | U8 => Uint8 | U16 => Uint16 | U32 => Uint32 | U64 => Uint64
  | Uptr => Uintptr
  end.

Definition FloatKind (w : FloatSize) : Kind :=
  match w with F32 => Float32 | F64 => Float64 end.

Definition ComplexKind (w : ComplexSize) : Kind :=
  match w with C64 => Complex64 | C128 => Complex128 end.

(** The code of a function value is named, not embedded. *)
Definition FuncId : Type := nat.

Inductive Value : Type :=
| VInvalid                                    (* the zero reflect.Value *)
| VBool (b : bool)
| VInt (w : IntSize) (i : Z)                  (* any signed width, as int64 *)
| VUint (w : UintSize) (u : Z)                (* any unsigned width, as uint64 *)
| VFloat (w : FloatSize) (f : spec_float)     (* as float64 *)
| VComplex (w : ComplexSize) (re im : spec_float)
| VString (s : string)
| VArray (elems : list Value)
| VSlice (elems : option (list Value))        (* None: the nil slice *)
| VMap (entries : option (list (Value * Value))) (* None: the nil map *)
| VChan (queue : option (list Value))         (* None: the nil channel *)
| VFunc (sig : FuncType) (code : option FuncId) (* None: the nil func *)
| VPtr (target : option Value)                (* None: the nil pointer *)
| VInterface (dyn : option Value)             (* an interface-typed slot *)
| VStruct (fields : list (string * Value))
| VUnsafePointer (addr : Z)
| VNamed (name : string) (v : Value).         (* a value of a defined type *)

(** An [interface{}]: nil, or a concrete value. *)
Inductive any : Type :=
| INil
| IVal (v : Value).

(** [reflect.ValueOf(i)] *)
Definition ValueOf (i : any) : Value :=
  match i with
  | INil => VInvalid
  | IVal v => v
  end.

Fixpoint underlying (v : Value) : Value :=
  match v with
  | VNamed _ u => underlying u
  | _ => v
  end.

Module Value.

Definition Kind (v : Value) : Kind :=
  match underlying v with
  | VInvalid => Invalid
  | VBool _ => Bool
  | VInt w _ => IntKind w
  | VUint w _ => UintKind w
  | VFloat w _ => FloatKind w
  | VComplex w _ _ => ComplexKind w
  | VString _ => String
  | VArray _ => Array
  | VSlice _ => Slice
  | VMap _ => Map
  | VChan _ => Chan
  | VFunc _ _ => Func
  | VPtr _ => Ptr
  | VInterface _ => Interface
  | VStruct _ => Struct
  | VUnsafePointer _ => UnsafePointer
  | VNamed _ _ => Invalid
  end.

Definition IsValid (v : Value) : bool :=
  match Kind v with Invalid => false | _ => true end.

Definition notKind {A : Type} (method : string) (v : Value) : result A :=
  Panic (ValueError method (Kind_String (Kind v))).

Definition Bool (v : Value) : result bool :=
  match underlying v with
  | VBool b => Ok b
  | _ => notKind "reflect.Value.Bool" v
  end.

Definition Int (v : Value) : result Z :=
  match underlying v with
  | VInt _ i => Ok i
  | _ => notKind "reflect.Value.Int" v
  end.

Definition Uint (v : Value) : result Z :=
  match underlying v with
  | VUint _ u => Ok u
  | _ => notKind "reflect.Value.Uint" v
  end.

Definition Float (v : Value) : result spec_float :=
  match underlying v with
  | VFloat _ f => Ok f
  | _ => notKind "reflect.Value.Float" v
  end.

Definition Complex (v : Value) : result (spec_float * spec_float) :=
  match underlying v with
  | VComplex _ re im => Ok (re, im)
  | _ => notKind "reflect.Value.Complex" v
  end.

Definition listLen {A : Type} (l : option (list A)) : Z :=
  match l with
  | None => 0
  | Some xs => Z.of_nat (List.length xs)
  end.

(** [v.Len()]: bytes of a string, elements of an array, slice or map,
    elements queued in a channel. *)
Definition Len (v : Value) : result Z :=
  match underlying v with
  | VString s => Ok (len_string s)
  | VArray xs => Ok (Z.of_nat (List.length xs))
  | VSlice xs => Ok (listLen xs)
  | VMap kvs => Ok (listLen kvs)
  | VChan q => Ok (listLen q)
  | _ => notKind "reflect.Value.Len" v
  end.

Definition isNone {A : Type} (o : option A) : bool :=
  match o with None => true | Some _ => false end.

Definition IsNil (v : Value) : result bool :=
  match underlying v with
  | VSlice xs => Ok (isNone xs)
  | VMap kvs => Ok (isNone kvs)
  | VChan q => Ok (isNone q)
  | VFunc _ code => Ok (isNone code)
  | VPtr p => Ok (isNone p)
  | VInterface d => Ok (isNone d)
  | VUnsafePointer a => Ok (a =? 0)
  | _ => notKind "reflect.Value.IsNil" v
  end.

(** [v.Elem()]: what an interface holds or a pointer points to; the zero
    Value for a nil one. *)
Definition Elem (v : Value) : result Value :=
  match underlying v with
  | VPtr (Some x) | VInterface (Some x) => Ok x
  | VPtr None | VInterface None => Ok VInvalid
  | _ => notKind "reflect.Value.Elem" v
  end.

(** [v.Index(i)] of an array or a slice. *)
Definition Index (v : Value) (i : Z) : result Value :=
  let at_ (xs : list Value) :=
    if (0 <=? i) && (i <? Z.of_nat (List.length xs))
    then Ok (nth (Z.to_nat i) xs VInvalid)
    else Panic (RuntimeError "reflect: slice index out of range") in
  match underlying v with
  | VArray xs => at_ xs
  | VSlice (Some xs) => at_ xs
  | VSlice None => at_ []
  | VString s =>
      match String.get (Z.to_nat i) s with
      | Some c => if 0 <=? i then Ok (VUint U8 (utf8.byteZ c))
                  else Panic (RuntimeError "reflect: string index out of range")
      | None => Panic (RuntimeError "reflect: string index out of range")
      end
  | _ => notKind "reflect.Value.Index" v
  end.

(** [v.MapKeys()], in the order the entries are listed. *)
Definition MapKeys (v : Value) : result (list Value) :=
  match underlying v with
  | VMap (Some kvs) => Ok (map fst kvs)
  | VMap None => Ok []
  | _ => notKind "reflect.Value.MapKeys" v
  end.

(** [v.Interface()]: the value as an [interface{}]. *)
Definition Interface (v : Value) : result any :=
  match underlying v with
  | VInvalid => notKind "reflect.Value.Interface" v
  | VInterface None => Ok INil
  | VInterface (Some x) => Ok (IVal x)
  | _ => Ok (IVal v)
  end.

(** [v.Type().String()], as far as a tree shows its type: the name of a
    defined type, else the name of the kind. *)
Definition typeString (v : Value) : string :=
  match v with
  | VNamed n _ => n
  | _ => Kind_String (Kind v)
  end.

(** [v.String()]: the string of a String value; a placeholder naming the
    type for any other value.  It never panics. *)
Definition String (v : Value) : string :=
  match underlying v with
  | VString s => s
  | VInvalid => "<invalid Value>"
  | _ => "<" ++ typeString v ++ " Value>"
  end.

(** [v.Type()] of a function value, the only type the helpers take
    apart. *)
Definition FuncType_ (v : Value) : result FuncType :=
  match underlying v with
  | VFunc sig _ => Ok sig
  | _ => notKind "reflect.Value.Type" v
  end.

(** [v.Type().Kind()]: [Type] panics on the zero Value. *)
Definition TypeKind (v : Value) : result reflect.Kind :=
  match Kind v with
  | Invalid => notKind "reflect.Value.Type" v
  | k => Ok k
  end.

End Value.

(** [reflect.Indirect(v)] *)
Definition Indirect (v : Value) : result Value :=
  match Value.Kind v with
  | Ptr => Value.Elem v
  | _ => Ok v
  end.

Definition zero64 : spec_float := S754_zero false.

(** The zero value of the type of [v]; the shape of [v] determines it. *)
Fixpoint zeroLike (v : Value) : Value :=
  match v with
  | VInvalid => VInvalid
  | VBool _ => VBool false
  | VInt w _ => VInt w 0
  | VUint w _ => VUint w 0
  | VFloat w _ => VFloat w zero64
  | VComplex w _ _ => VComplex w zero64 zero64
  | VString _ => VString ""
  | VArray xs => VArray (map zeroLike xs)
  | VSlice _ => VSlice None
  | VMap _ => VMap None
  | VChan _ => VChan None
  | VFunc sig _ => VFunc sig None
  | VPtr _ => VPtr None
  | VInterface _ => VInterface None
  | VStruct fs => VStruct (map (fun f => (fst f, zeroLike (snd f))) fs)
  | VUnsafePointer _ => VUnsafePointer 0
  | VNamed n u => VNamed n (zeroLike u)
  end.

(** [reflect.Zero(v.Type())] *)
Definition ZeroOfType (v : Value) : result Value :=
  match Value.Kind v with
  | Invalid => Value.notKind "reflect.Value.Type" v
  | _ => Ok (zeroLike v)
  end.

Fixpoint typeNames (v : Value) : list string :=
  match v with
  | VNamed n u => n :: typeNames u
  | _ => []
  end.

Fixpoint names_eqb (a b : list string) : bool :=
  match a, b with
  | [], [] => true
  | x :: a', y :: b' => String.eqb x y && names_eqb a' b'
  | _, _ => false
  end.

(** [v1.Type() == v2.Type()], as far as a tree shows its type: the names
    and the kind. *)
Definition sameType (v1 v2 : Value) : bool :=
  names_eqb (typeNames v1) (typeNames v2)
  && Kind_eqb (Value.Kind v1) (Value.Kind v2).

(** [deepValueEqual] on trees.  Two trees never denote the same pointer,
    channel or function, so pointers are compared through their targets
    and channels and functions are equal only when both are nil; map keys
    are matched by the same relation. *)
Fixpoint deepValueEqual (v1 v2 : Value) {struct v1} : bool :=
  match v1, underlying v2 with
  | VNamed _ u1, _ => deepValueEqual u1 v2
  | VInvalid, VInvalid => true
  | VBool a, VBool b => Bool.eqb a b
  | VInt _ a, VInt _ b => a =? b
  | VUint _ a, VUint _ b => a =? b
  | VFloat _ a, VFloat _ b => SFeqb a b
  | VComplex _ a b, VComplex _ c d => SFeqb a c && SFeqb b d
  | VString a, VString b => String.eqb a b
  | VArray xs, VArray ys
  | VSlice (Some xs), VSlice (Some ys) =>
      (fix all2 (xs ys : list Value) {struct xs} : bool :=
         match xs, ys with
         | [], [] => true
         | x :: xs', y :: ys' => deepValueEqual x y && all2 xs' ys'
         | _, _ => false
         end) xs ys
  | VSlice None, VSlice None => true
  | VMap None, VMap None => true
  | VMap (Some m1), VMap (Some m2) =>
      (List.length m1 =? List.length m2)%nat
      && (fix each (m : list (Value * Value)) {struct m} : bool :=
            match m with
            | [] => true
            | (k1, x1) :: m' =>
                existsb (fun kx => deepValueEqual k1 (fst kx)
                                   && deepValueEqual x1 (snd kx)) m2
                && each m'
            end) m1
  | VChan None, VChan None => true
  | VFunc _ None, VFunc _ None => true
  | VPtr None, VPtr None => true
  | VPtr (Some a), VPtr (Some b) => deepValueEqual a b
  | VInterface None, VInterface None => true
  | VInterface (Some a), VInterface (Some b) => sameType a b && deepValueEqual a b
  | VStruct f1, VStruct f2 =>
      (fix all2 (xs ys : list (string * Value)) {struct xs} : bool :=
         match xs, ys with
         | [], [] => true
         | x :: xs', y :: ys' => deepValueEqual (snd x) (snd y) && all2 xs' ys'
         | _, _ => false
         end) f1 f2
  | VUnsafePointer a, VUnsafePointer b => a =? b
  | _, _ => false
  end.

(** [reflect.DeepEqual(x, y)] *)
Definition DeepEqual (x y : any) : bool :=
  match x, y with
  | INil, INil => true
  | INil, IVal _ | IVal _, INil => false
  | IVal v1, IVal v2 => sameType v1 v2 && deepValueEqual v1 v2
  end.

Section Call.

(** What running the code of a function value does: it returns its
    results, or panics with a message of its own. *)
Variable callee : FuncId -> list Value -> list Value + string.
(** Whether a value may be passed at a position of a function type
    ([Type.AssignableTo] on the parameter type). *)
Variable assignable : FuncType -> nat -> Value -> bool.

Fixpoint assignableFrom (sig : FuncType) (i : nat) (args : list Value) : bool :=
  match args with
  | [] => true
  | x :: rest => assignable sig i x && assignableFrom sig (S i) rest
  end.

(** [fv.Call(in)] *)
Definition Call (fv : Value) (ins : list Value) : result (list Value) :=
  match underlying fv with
  | VFunc sig None => Panic (RuntimeError "reflect.Value.Call: call of nil function")
  | VFunc sig (Some f) =>
      let n := if IsVariadic sig then pred (List.length (Ins sig))
               else List.length (Ins sig) in
      if (List.length ins <? n)%nat
      then Panic (RuntimeError "reflect: Call with too few input arguments")
      else if negb (IsVariadic sig) && (n <? List.length ins)%nat
      then Panic (RuntimeError "reflect: Call with too many input arguments")
      else if existsb (fun x => negb (Value.IsValid x)) ins
      then Panic (RuntimeError "reflect: Call using zero Value argument")
      else if negb (assignableFrom sig 0 ins)
      then Panic (RuntimeError "reflect: Call using value as another type")
      else match callee f ins with
     | inl outs => Ok outs
     | inr msg => Panic (CalleePanic msg)
     end
  | _ => Value.notKind "reflect.Value.Call" fv
  end.

End Call.

Definition NumIn (t : FuncType) : Z := Z.of_nat (List.length (Ins t)).

Definition NumOut (t : FuncType) : Z := Z.of_nat (List.length (Outs t)).

(** [t.Out(i)] panics when [i] is out of range. *)
Definition Out (t : FuncType) (i : Z) : result Type_ :=
  if (0 <=? i) && (i <? NumOut t)
  then match nth_error (Outs t) (Z.to_nat i) with
       | Some ty => Ok ty
       | None => Panic (RuntimeError "reflect: Func index out of bounds")
       end
  else Panic (RuntimeError "reflect: Func index out of bounds").

End reflect.

(* ================================================================= *)
(** ** Package validate: util.go *)

Module validate.

Import reflect.

(** [errors.New] values of the package. *)
Inductive error : Type :=
| ErrConvertFail
| errBadComparisonType.

(** [type NilObject struct{}] and [var nilObj = NilObject{}] *)
Definition NilObject : string := "validate.NilObject".

Definition nilObj : Value := VNamed NilObject (VStruct []).

Definition nilRVal : Value := ValueOf (IVal nilObj).

Definition IsNilObj (val : any) : bool :=
  match val with
  | IVal (VNamed n (VStruct [])) => String.eqb n NilObject
  | _ => false
  end.

Definition panicf {A : Type} (msg : string) : result A :=
  Panic (RuntimeError ("validate: " ++ msg)).

(** The loop of [CallByValue] that fills [in]. *)
Definition CallByValue_in (args : list any) : list Value :=
  map (fun v =>
         let x := ValueOf v in
         match Value.Kind x with
         | Invalid => nilRVal
         | _ => x
         end) args.

Section CallByValue.

Variable callee : FuncId -> list Value -> list Value + string.
Variable assignable : FuncType -> nat -> Value -> bool.

Definition CallByValue (fv : Value) (args : list any) : result (list Value) :=
  match Value.Kind fv with
  | Func => Call callee assignable fv (CallByValue_in args)
  | _ => panicf "parameter must be an func type"
  end.

End CallByValue.

Definition ValueIsEmpty (v : Value) : result bool :=
  match Value.Kind v with
  | Invalid => Ok true
  | String | Array =>
      n <- Value.Len v ;; Ok (n =? 0)
  | Map | Slice =>
      n <- Value.Len v ;;
      if n =? 0 then Ok true else Value.IsNil v
  | Bool =>
      b <- Value.Bool v ;; Ok (negb b)
  | Int | Int8 | Int16 | Int32 | Int64 =>
      i <- Value.Int v ;; Ok (i =? 0)
  | Uint | Uint8 | Uint16 | Uint32 | Uint64 | Uintptr =>
      u <- Value.Uint v ;; Ok (u =? 0)
  | Float32 | Float64 =>
      f <- Value.Float v ;; Ok (SFeqb f zero64)
  | Interface | Ptr => Value.IsNil v
  | _ =>
      x <- Value.Interface v ;;
      z <- ZeroOfType v ;;
      y <- Value.Interface z ;;
      Ok (DeepEqual x y)
  end.

Section Length.

(** [fmt.Sprint] of one operand. *)
Variable fmt_Sprint : any -> string.

Definition ValueLen (v : Value) : result Z :=
  v <- Indirect v ;;
  let k := Value.Kind v in
  match k with
  | String => Ok (utf8.RuneCountInString (Value.String v))
  | Map | Array | Chan | Slice => Value.Len v
  | Uint | Uint8 | Uint16 | Uint32 | Uint64 | Uintptr =>
      u <- Value.Uint v ;; Ok (len_string (strconv.FormatInt (int64 u)))
  | Int | Int8 | Int16 | Int32 | Int64 =>
      i <- Value.Int v ;; Ok (len_string (strconv.FormatInt i))
  | Float32 | Float64 =>
      x <- Value.Interface v ;; Ok (len_string (fmt_Sprint x))
  | _ => Ok (-1)
  end.

Definition CalcLength (val : any) : result Z :=
  match val with
  | INil => Ok (-1)
  | IVal (VString str) => Ok (utf8.RuneCountInString str)
  | _ => ValueLen (ValueOf val)
  end.

End Length.

Definition compareInt64 (srcI64 dstI64 : Z) (op : string) : bool :=
  if String.eqb op "lt" then srcI64 <? dstI64
  else if String.eqb op "lte" then srcI64 <=? dstI64
  else if String.eqb op "gt" then srcI64 >? dstI64
  else if String.eqb op "gte" then srcI64 >=? dstI64
  else false.

Definition compareFloat64 (srcI64 dstI64 : spec_float) (op : string) : bool :=
  if String.eqb op "lt" then SFltb srcI64 dstI64
  else if String.eqb op "lte" then SFleb srcI64 dstI64
  else if String.eqb op "gt" then SFltb dstI64 srcI64
  else if String.eqb op "gte" then SFleb dstI64 srcI64
  else false.

Section Compare.

(** Package mathutil of the numeric collaborator: [None] stands for a
    non-nil error. *)
Variable mathutil_ToInt64 : any -> option Z.
Variable mathutil_Int64 : any -> option Z.
Variable mathutil_ToFloat : any -> option spec_float.

Definition valueCompare (srcVal dstVal : any) (op : string) : bool :=
  match srcVal with
  | IVal (VString str) =>
      match dstVal with
      | IVal (VString dst) =>
          let srcInt := int64 (len_string str) in
          let dstInt := int64 (len_string dst) in
          compareInt64 srcInt dstInt op
      | _ => false
      end
  | _ =>
      match mathutil_ToInt64 srcVal with
      | None => false
      | Some srcInt =>
          match mathutil_ToInt64 dstVal with
          | None => false
          | Some dstInt => compareInt64 srcInt dstInt op
          end
      end
  end.

Definition compareIntFloat (srcVal dstVal : any) (op : string) : bool :=
  match srcVal, dstVal with
  | INil, _ | _, INil => false
  | IVal (VFloat F64 srcFlt), _ =>
      match mathutil_ToFloat dstVal with
      | None => false
      | Some dstFlt => compareFloat64 srcFlt dstFlt op
      end
  | IVal (VFloat F32 srcFlt), _ =>
      match mathutil_ToFloat dstVal with
      | None => false
      | Some dstFlt => compareFloat64 srcFlt (* float64(srcFlt) *) dstFlt op
      end
  | _, _ =>
      match mathutil_Int64 srcVal with
      | None => false
      | Some srcInt =>
          match mathutil_Int64 dstVal with
          | None => false
          | Some dstInt => compareInt64 srcInt dstInt op
          end
      end
  end.

End Compare.

(** [errorType]: the reflect.Type of the predeclared interface [error]. *)
Definition errorType : Type_ := mkType "error" Interface.

Definition emptyValue : Value := VInvalid.

(** [goodFunc]: one result, or two results where the second is [error]. *)
Definition goodFunc (typ : FuncType) : result bool :=
  if NumOut typ =? 1 then Ok true
  else if NumOut typ =? 2
  then out1 <- Out typ 1 ;;
       if Type_eqb out1 errorType then Ok true else Ok false
  else Ok false.

Section Names.

Variable unicode_IsLetter : Z -> bool.
Variable unicode_IsDigit : Z -> bool.

Fixpoint goodName_range (rs : list (Z * Z)) : bool :=
  match rs with
  | [] => true
  | (i, r) :: rest =>
      if r =? 95 then goodName_range rest
      else if (i =? 0) && negb (unicode_IsLetter r) then false
      else if negb (unicode_IsLetter r) && negb (unicode_IsDigit r) then false
      else goodName_range rest
  end.

Definition goodName (name : string) : bool :=
  if String.eqb name "" then false
  else goodName_range (utf8.range name).

Definition isNilAny (x : any) : bool :=
  match x with INil => true | IVal _ => false end.

Definition quote (s : string) : string :=
  let q := String.String (ascii_of_nat 34) "" in q ++ s ++ q.

Definition checkValidatorFunc (name : string) (fn : any) : result Value :=
  if negb (goodName name)
  then panicf ("validate name " ++ name ++ " is not a valid identifier")
  else
    let fv := ValueOf fn in
    if isNilAny fn || negb (Kind_eqb (Value.Kind fv) Func)
    then panicf ("validator '" ++ name
                 ++ "'. 2th parameter is invalid, it must be an func")
    else
      ft <- Value.FuncType_ fv ;;
      if NumIn ft =? 0
      then panicf ("validator '" ++ name
                   ++ "' func at least one parameter position")
      else
        bad <- (if negb (NumOut ft =? 1) then Ok true
                else out0 <- Out ft 0 ;;
                     Ok (negb (Kind_eqb (Type_Kind out0) Bool))) ;;
        if bad
        then panicf ("validator '" ++ name ++ "' func must be return a bool value")
        else Ok fv.

Definition checkFilterFunc (name : string) (fn : any) : result Value :=
  if negb (goodName name)
  then panicf ("filter name " ++ name ++ " is not a valid identifier")
  else
    let fv := ValueOf fn in
    if isNilAny fn || negb (Kind_eqb (Value.Kind fv) Func)
    then panicf ("filter '" ++ name
                 ++ "'. 2th parameter is invalid, it must be an func")
    else
      ft <- Value.FuncType_ fv ;;
      if NumIn ft =? 0
      then panicf ("filter '" ++ name ++ "' func at least one parameter position")
      else
        good <- goodFunc ft ;;
        if negb good
        then panicf ("can't install method/function " ++ quote name ++ " with "
                     ++ strconv.FormatInt (NumOut ft) ++ " results")
        else Ok fv.

End Names.

(** [type kind int] and the base kinds. *)
Inductive kind : Type :=
| invalidKind
| boolKind
| complexKind
| intKind
| floatKind
| stringKind
| uintKind.

Definition kind_eqb (a b : kind) : bool :=
  match a, b with
  | invalidKind, invalidKind | boolKind, boolKind | complexKind, complexKind
  | intKind, intKind | floatKind, floatKind | stringKind, stringKind
  | uintKind, uintKind => true
  | _, _ => false
  end.

Definition basicKindV2 (k : Kind) : kind * option error :=
  match k with
  | Bool => (boolKind, None)
  | Int | Int8 | Int16 | Int32 | Int64 => (intKind, None)
  | Uint | Uint8 | Uint16 | Uint32 | Uint64 | Uintptr => (uintKind, None)
  | Float32 | Float64 => (floatKind, None)
  | Complex64 | Complex128 => (complexKind, None)
  | String => (stringKind, None)
  | _ => (invalidKind, Some errBadComparisonType)
  end.

Definition indirectInterface (v : Value) : result Value :=
  match Value.Kind v with
  | Interface =>
      isNil <- Value.IsNil v ;;
      if isNil then Ok emptyValue else Value.Elem v
  | _ => Ok v
  end.

(** [eq] evaluates the comparison [a == b]. *)
Definition eq (arg1 arg2 : Value) : result (bool * option error) :=
  v1 <- indirectInterface arg1 ;;
  match basicKindV2 (Value.Kind v1) with
  | (_, Some err) => Ok (false, Some err)
  | (k1, None) =>
      v2 <- indirectInterface arg2 ;;
      match basicKindV2 (Value.Kind v2) with
      | (_, Some err) => Ok (false, Some err)
      | (k2, None) =>
          if negb (kind_eqb k1 k2)
          then
            truth <-
              match k1, k2 with
              | intKind, uintKind =>
                  i <- Value.Int v1 ;;
                  if i >=? 0
                  then i' <- Value.Int v1 ;; u <- Value.Uint v2 ;;
                       Ok (uint64 i' =? u)
                  else Ok false
              | uintKind, intKind =>
                  i <- Value.Int v2 ;;
                  if i >=? 0
                  then u <- Value.Uint v1 ;; i' <- Value.Int v2 ;;
                       Ok (u =? uint64 i')
                  else Ok false
              | _, _ => Ok false
              end ;;
            Ok (truth, None)
          else
            truth <-
              match k1 with
              | boolKind =>
                  a <- Value.Bool v1 ;; b <- Value.Bool v2 ;; Ok (Bool.eqb a b)
              | complexKind =>
                  a <- Value.Complex v1 ;; b <- Value.Complex v2 ;;
                  Ok (SFeqb (fst a) (fst b) && SFeqb (snd a) (snd b))
              | floatKind =>
                  a <- Value.Float v1 ;; b <- Value.Float v2 ;; Ok (SFeqb a b)
              | intKind =>
                  a <- Value.Int v1 ;; b <- Value.Int v2 ;; Ok (a =? b)
              | stringKind =>
                  Ok (String.eqb (Value.String v1) (Value.String v2))
              | uintKind =>
                  a <- Value.Uint v1 ;; b <- Value.Uint v2 ;; Ok (a =? b)
              | invalidKind => Ok false
              end ;;
            Ok (truth, None)
      end
  end.

Section Membership.

(** [IsEqual] of the validators of this package. *)
Variable IsEqual : any -> any -> result bool.

(** [for i := 0; i < len(mapKeys); i++] *)
Fixpoint includeElement_keys (mapKeys : list Value) (element : any)
  : result (bool * bool) :=
  match mapKeys with
  | [] => Ok (true, false)
  | key :: rest =>
      k <- Value.Interface key ;;
      same <- IsEqual k element ;;
      if same then Ok (true, true) else includeElement_keys rest element
  end.

(** The turns of [for i := 0; i < listValue.Len(); i++] from index [i] on:
    the length does not change between turns, so [todo] of them are left. *)
Fixpoint includeElement_index (todo : nat) (i : Z) (listValue : Value)
         (element : any) : result (bool * bool) :=
match todo with
| O => Ok (true, false)
| S todo' =>
    x <- Value.Index listValue i ;;
    xi <- Value.Interface x ;;
    same <- IsEqual xi element ;;
    if same then Ok (true, true)
    else includeElement_index todo' (i + 1) listValue element
end.

Definition includeElement (list element : any) : result (bool * bool) :=
  let listValue := ValueOf list in
  let elementValue := ValueOf element in
  listKind <- Value.TypeKind listValue ;;
  match listKind with
  | String =>
      Ok (true, strings.Contains (Value.String listValue)
                                 (Value.String elementValue))
  | _ =>
      catch
        (match listKind with
         | Map =>
             mapKeys <- Value.MapKeys listValue ;;
             includeElement_keys mapKeys element
         | _ =>
             n <- Value.Len listValue ;;
             includeElement_index (Z.to_nat n) 0 listValue element
         end)
        (fun _ => (false, false))
  end.

End Membership.

End validate.

(* ================================================================= *)
(** ** The numeric collaborator on integers and floats

    Package mathutil is outside this repository and the functions above
    take its conversions as parameters.  On an integer or a float operand
    the conversions are Go's [int64(x)] and [float64(x)]; this module
    writes these two out, to run the comparisons on numbers. *)

Module mathutil.

Import reflect.

(** [float64(i)], rounded to nearest even. *)
Definition float64_of_int (i : Z) : spec_float := binary_normalize 53 1024 i 0 false.

(** [int64(f)]: the integer part of [f]; the most negative value when [f]
    is not a number or out of range (as on amd64). *)
Definition int64_of_float (f : spec_float) : Z :=
  match f with
  | S754_zero _ => 0
  | S754_finite s m e =>
      let mag := if 0 <=? e then Z.pos m * 2 ^ e else Z.pos m / 2 ^ (- e) in
      let z := if s then - mag else mag in
      if (- 2 ^ 63 <=? z) && (z <? 2 ^ 63) then z else - 2 ^ 63
  | _ => - 2 ^ 63
  end.

Definition Int64 (x : any) : option Z :=
  match x with
  | IVal (VInt _ i) => Some i
  | IVal (VUint _ u) => Some (int64 u)
  | IVal (VFloat _ f) => Some (int64_of_float f)
  | _ => None
  end.

Definition ToFloat (x : any) : option spec_float :=
  match x with
  | IVal (VInt _ i) => Some (float64_of_int i)
  | IVal (VUint _ u) => Some (float64_of_int u)
  | IVal (VFloat _ f) => Some f
  | _ => None
  end.

(** 3.5 *)
Definition three_and_a_half : spec_float := binary_normalize 53 1024 7 (-1) false.

End mathutil.

(* ================================================================= *)
(** ** Package validate: the other helpers of util.go

    The helpers of [util.go] that the functions above do not call, in
    source order.  Errors of other packages are [OtherErr]. *)

Module util.

Import reflect.

Inductive goerror : Type :=
| PkgErr (e : validate.error)      (* an error value of this package *)
| OtherErr (text : string).        (* an error of another package *)

Section Args.

Variable strings_TrimSpace : string -> string.
Variable strings_Split : string -> string -> list string.

(** The loop of [stringSplit] over the pieces, appending to [ss]. *)
Fixpoint stringSplit_range (vals : list string) (ss : list string) : list string :=
match vals with
| [] => ss
| val :: rest =>
    let val := strings_TrimSpace val in
    if negb (String.eqb val "")
    then stringSplit_range rest (ss ++ [val])
    else stringSplit_range rest ss
end.

Definition stringSplit (str sep : string) : list string :=
let str := strings_TrimSpace str in
if String.eqb str "" then []
else stringSplit_range (strings_Split str sep) [].

Definition parseArgString (argStr : string) : list string :=
if String.eqb argStr "" then []
else if len_string argStr =? 1 then [argStr]
else stringSplit argStr ",".

End Args.

(** [make([]interface{}, n)] *)
Definition make_any (n : nat) : list any := repeat INil n.

(** [copy(dst, src)]: [dst] after the copy of as many elements as both
    hold. *)
Fixpoint copy (dst src : list any) : list any :=
match dst, src with
| _ :: dst', x :: src' => x :: copy dst' src'
| _, _ => dst
end.

Definition buildArgs (val : any) (args : list any) : list any :=
let newArgs := make_any (List.length args + 1) in
match newArgs with
| [] => []                      (* unreachable: the length is at least 1 *)
| _ :: rest => val :: copy rest args
end.

Section ToInt64.

(** [strconv.ParseInt(s, 10, 0)]: the number and the error text, if any. *)
Variable strconv_ParseInt : string -> Z * option string.
(** [filter.Trim(s)] *)
Variable filter_Trim : string -> string.
(** The conversion [int64(f)] of a float. *)
Variable float_to_int64 : spec_float -> Z.

Definition valueToInt64 (v : any) (strict : bool) : Z * option goerror :=
match v with
| IVal (VString tVal) =>
    if strict then (0, Some (PkgErr validate.ErrConvertFail))
    else let '(i64, err) := strconv_ParseInt (filter_Trim tVal) in
         (i64, option_map OtherErr err)
| IVal (VInt _ tVal) => (tVal, None)         (* a signed value widens as it is *)
| IVal (VUint Uptr _) => (0, Some (PkgErr validate.ErrConvertFail))
| IVal (VUint _ tVal) => (int64 tVal, None)
| IVal (VFloat _ tVal) =>
    if strict then (0, Some (PkgErr validate.ErrConvertFail))
    else (float_to_int64 tVal, None)
| _ => (0, Some (PkgErr validate.ErrConvertFail))
end.

End ToInt64.

Definition getVariadicKind (typString : string) : Kind :=
if String.eqb typString "[]int" then Int
else if String.eqb typString "[]int8" then Int8
else if String.eqb typString "[]int16" then Int16
else if String.eqb typString "[]int32" then Int32
else if String.eqb typString "[]int64" then Int64
else if String.eqb typString "[]uint" then Uint
else if String.eqb typString "[]uint8" then Uint8
else if String.eqb typString "[]uint16" then Uint16
else if String.eqb typString "[]uint32" then Uint32
else if String.eqb typString "[]uint64" then Uint64
else if String.eqb typString "[]string" then String
else if String.eqb typString "[]interface {}" then Interface
else Invalid.

(** [srcVal.(string)], which panics when the operand is not a string. *)
Definition assertString (srcVal : any) : result string :=
match srcVal with
| IVal (VString s) => Ok s
| _ => Panic (RuntimeError "interface conversion: interface {} is not string")
end.

Section Conv.

(** The conversions of packages mathutil and strutil: the value and the
    error text, if any. *)
Variable mathutil_ToInt : any -> Z * option string.
Variable mathutil_ToInt64 : any -> Z * option string.
Variable mathutil_MustInt64 : any -> result Z.
Variable strutil_Bool : string -> bool * option string.
Variable strutil_ToString : any -> string * option string.

Definition convTypeByBaseKind (srcVal : any) (srcKind : validate.kind) (dstType : Kind)
  : result (any * option goerror) :=
let fail := Ok (INil, Some (PkgErr validate.ErrConvertFail)) in
let toString :=
  let '(s, err) := strutil_ToString srcVal in
  Ok (IVal (VString s), option_map OtherErr err) in
match srcKind with
| validate.stringKind =>
    match dstType with
    | Int =>
        let '(i, err) := mathutil_ToInt srcVal in
        Ok (IVal (VInt I0 i), option_map OtherErr err)
    | Int64 =>
        let '(i, err) := mathutil_ToInt64 srcVal in
        Ok (IVal (VInt I64 i), option_map OtherErr err)
    | Bool =>
        s <- assertString srcVal ;;
        let '(b, err) := strutil_Bool s in
        Ok (IVal (VBool b), option_map OtherErr err)
    | String =>
        s <- assertString srcVal ;; Ok (IVal (VString s), None)
    | _ => fail
    end
| validate.intKind | validate.uintKind =>
    i64 <- mathutil_MustInt64 srcVal ;;
    match dstType with
    | Int64 => Ok (IVal (VInt I64 i64), None)
    | String => toString
    | _ => fail
    end
| _ =>
    match dstType with
    | String => toString
    | _ => fail
    end
end.

End Conv.

Definition convToBasicType (val : any) : result (any * option validate.error) :=
v <- Indirect (ValueOf val) ;;
match Value.Kind v with
| String => Ok (IVal (VString (Value.String v)), None)
| Int | Int8 | Int16 | Int32 | Int64 =>
    i <- Value.Int v ;; Ok (IVal (VInt I64 i), None)
| Uint | Uint8 | Uint16 | Uint32 | Uint64 =>
    u <- Value.Uint v ;; Ok (IVal (VInt I64 (int64 u)), None)
| _ => Ok (INil, Some validate.ErrConvertFail)
end.

(** [removeValuePtr]: the loop [for t.Kind() == reflect.Ptr { t = t.Elem() }]
    follows the tree down; a nil pointer ends it at the zero Value. *)
Fixpoint removeValuePtr (t : Value) : Value :=
match t with
| VPtr (Some x) => removeValuePtr x
| VPtr None => VInvalid
| VNamed _ u =>
    match Value.Kind u with
    | Ptr => removeValuePtr u
    | _ => t
    end
| _ => t
end.

End util.

(* ================================================================= *)
(** ** Notions of the specification

    What the properties below compare the code with. *)

Import reflect.

(** The value [eq] compares: what an interface-typed slot holds. *)
Definition operand (arg : Value) : Value :=
  match underlying arg with
  | VInterface (Some x) => x
  | VInterface None => VInvalid
  | _ => arg
  end.

(** Native equality ([==]) of two values of one comparable base kind. *)
Definition native_eq (v1 v2 : Value) : bool :=
  match underlying v1, underlying v2 with
  | VBool a, VBool b => Bool.eqb a b
  | VInt _ a, VInt _ b => a =? b
  | VUint _ a, VUint _ b => a =? b
  | VFloat _ a, VFloat _ b => SFeqb a b
  | VComplex _ a b, VComplex _ c d => SFeqb a c && SFeqb b d
  | VString a, VString b => String.eqb a b
  | _, _ => false
  end.

(** [d] is the number of decimal digits of the natural number [n]. *)
Definition decimal_digits (n d : Z) : Prop :=
  1 <= d /\ n < 10 ^ d /\ (n = 0 /\ d = 1 \/ 10 ^ (d - 1) <= n).

Definition isDigitByte (c : ascii) : bool := utf8.between 48 57 (utf8.byteZ c).

(** The number of decimal digits in a text. *)
Fixpoint digitCount (s : string) : Z :=
  match s with
  | EmptyString => 0
  | String.String c r => (if isDigitByte c then 1 else 0) + digitCount r
  end.

(** What [reflect.Indirect] yields: the target of a pointer, the value
    itself otherwise. *)
Definition pointee (v : Value) : Value :=
  match underlying v with
  | VPtr (Some x) => x
  | VPtr None => VInvalid
  | _ => v
  end.

(** The string of the specification, five runes in six bytes: h, e-acute
    (two bytes), l, l, o. *)
Definition hello_acute : string :=
  String.String "h" (String.String (ascii_of_nat 195) (String.String (ascii_of_nat 169) "llo")).

(** One rune in two bytes: e-acute. *)
Definition e_acute : string :=
  String.String (ascii_of_nat 195) (String.String (ascii_of_nat 169) "").

(** The return shape of a validator: exactly one result, a boolean. *)
Definition validator_shape (sig : FuncType) : Prop :=
  exists t, Outs sig = [t] /\ Type_Kind t = Bool.

(** The return shape of a filter: exactly one result, or two results where
    the second is [error]. *)
Definition filter_shape (sig : FuncType) : Prop :=
  (exists t, Outs sig = [t]) \/ (exists t, Outs sig = [t; validate.errorType]).

(** A function value with at least one parameter. *)
Definition func_with_parameter (fn : any) (fv : Value) (sig : FuncType) : Prop :=
  fn = IVal fv /\ (exists code, underlying fv = VFunc sig code) /\ Ins sig <> [].

(** What a panic raised through [panicf] carries. *)
Definition by_panicf (p : PanicVal) : Prop :=
  exists msg, p = RuntimeError ("validate: " ++ msg).

(** The slot [CallByValue] passes for one argument. *)
Definition sanitized (a : any) : Value :=
  if Value.IsValid (ValueOf a) then ValueOf a else validate.nilRVal.

(** The first rune of a name: the underscore or a letter. *)
Definition nameStart (isLetter : Z -> bool) (r : Z) : bool :=
  (r =? 95) || isLetter r.

(** Any rune of a name: the underscore, a letter or a digit. *)
Definition nameRune (isLetter isDigit : Z -> bool) (r : Z) : bool :=
  (r =? 95) || isLetter r || isDigit r.

(** The element kinds [getVariadicKind] knows by the name of the kind. *)
Definition variadicElem (k : Kind) : bool :=
  match k with
  | Int | Int8 | Int16 | Int32 | Int64
  | Uint | Uint8 | Uint16 | Uint32 | Uint64 | String => true
  | _ => false
  end.

Definition nonEmpty (s : string) : bool := negb (String.eqb s "").

(** The pairs of source base kind and target kind that
    [convTypeByBaseKind] converts. *)
Definition convertible (srcKind : validate.kind) (dstType : Kind) : bool :=
  match srcKind, dstType with
  | validate.stringKind, (Int | Int64 | Bool | String) => true
  | (validate.intKind | validate.uintKind), (Int64 | String) => true
  | (validate.invalidKind | validate.boolKind | validate.complexKind
     | validate.floatKind), String => true
  | _, _ => false
  end.

Definition isStringAny (x : any) : bool :=
  match x with
  | IVal (VString _) => true
  | _ => false
  end.

(** What [Interface] returns for a valid value: what an interface-typed
    slot holds, the value itself otherwise. *)
Definition held (x : Value) : any :=
  match underlying x with
  | VInterface None => INil
  | VInterface (Some y) => IVal y
  | _ => IVal x
  end.

(** A string of ASCII bytes only. *)
Fixpoint allASCII (s : string) : bool :=
  match s with
  | EmptyString => true
  | String.String c r => (utf8.byteZ c <? 128) && allASCII r
  end.

(* ================================================================= *)
(** * Properties *)

(** ** What the accessors tell about a value *)

Lemma Int_inv (v : Value) (a : Z) :
  Value.Int v = Ok a -> exists w, underlying v = VInt w a.
Proof.
  unfold Value.Int. destruct (underlying v); try discriminate.
  intros H. injection H as ->. eauto.
Qed.

Lemma Uint_inv (v : Value) (b : Z) :
  Value.Uint v = Ok b -> exists w, underlying v = VUint w b.
Proof.
  unfold Value.Uint. destruct (underlying v); try discriminate.
  intros H. injection H as ->. eauto.
Qed.

Lemma underlying_idem (v : Value) : underlying (underlying v) = underlying v.
Proof. induction v; simpl; auto. Qed.

Lemma underlying_not_named (v : Value) (n : string) (u : Value) :
  underlying v <> VNamed n u.
Proof. induction v; simpl; try discriminate. exact IHv. Qed.

Lemma Kind_underlying (v : Value) : Value.Kind (underlying v) = Value.Kind v.
Proof. unfold Value.Kind. now rewrite underlying_idem. Qed.

Lemma uint64_small (a : Z) : 0 <= a < 2 ^ 64 -> uint64 a = a.
Proof. intros H. unfold uint64. now apply Z.mod_small. Qed.

Lemma int64_small (a : Z) : in_int64 a -> int64 a = a.
Proof.
  unfold in_int64, int64. intros H.
  rewrite Z.mod_small; lia.
Qed.

Arguments uint64 : simpl never.
Arguments int64 : simpl never.
Arguments len_string : simpl never.

(** Runs the accessors of values whose underlying tree is known. *)
Ltac run_accessors :=
  unfold Value.IsValid, Value.Kind, Value.Int, Value.Uint, Value.Bool,
    Value.Float, Value.Complex, Value.String, Value.Len, Value.IsNil,
    Value.Elem, Value.Interface, Value.notKind.

Ltac run_with H1 H2 :=
  repeat (progress (run_accessors; rewrite ?H1, ?H2; cbn)).

Lemma indirectInterface_operand (arg : Value) :
  validate.indirectInterface arg = Ok (operand arg).
Proof.
  unfold validate.indirectInterface, operand, Value.Kind, Value.IsNil, Value.Elem.
  destruct (underlying arg) as [| | w ? | w ? | w ? | w ? ? | | | | | | | | d | | | ? ?] eqn:U;
    try reflexivity; try (destruct w; reflexivity); try (destruct d; reflexivity).
Qed.

Lemma basicKindV2_IntKind (w : IntSize) :
  validate.basicKindV2 (IntKind w) = (validate.intKind, None).
Proof. destruct w; reflexivity. Qed.

Lemma basicKindV2_UintKind (w : UintSize) :
  validate.basicKindV2 (UintKind w) = (validate.uintKind, None).
Proof. destruct w; reflexivity. Qed.

Lemma basicKindV2_FloatKind (w : FloatSize) :
  validate.basicKindV2 (FloatKind w) = (validate.floatKind, None).
Proof. destruct w; reflexivity. Qed.

Lemma basicKindV2_ComplexKind (w : ComplexSize) :
  validate.basicKindV2 (ComplexKind w) = (validate.complexKind, None).
Proof. destruct w; reflexivity. Qed.

Lemma basicKind_shape (v : Value) (k : validate.kind) :
  validate.basicKindV2 (Value.Kind v) = (k, None) ->
  match k with
  | validate.invalidKind => False
  | validate.boolKind => exists b, underlying v = VBool b
  | validate.complexKind => exists w re im, underlying v = VComplex w re im
  | validate.intKind => exists w i, underlying v = VInt w i
  | validate.floatKind => exists w f, underlying v = VFloat w f
  | validate.stringKind => exists s, underlying v = VString s
  | validate.uintKind => exists w u, underlying v = VUint w u
  end.
Proof.
  unfold Value.Kind.
  destruct (underlying v) as [| | w ? | w ? | w ? | w ? ? | | | | | | | | | | | ? ?];
    try destruct w; cbn; intros H; inversion H; eauto.
Qed.

Lemma basicKindV2_error (k : Kind) (b : validate.kind) (e : validate.error) :
  validate.basicKindV2 k = (b, Some e) ->
  b = validate.invalidKind /\ e = validate.errBadComparisonType.
Proof. destruct k; cbn; intros H; inversion H; auto. Qed.

Ltac run_kinds :=
  rewrite ?basicKindV2_IntKind, ?basicKindV2_UintKind, ?basicKindV2_FloatKind,
    ?basicKindV2_ComplexKind.

(** From the underlying tree of a value, its kind. *)
Ltac kind_of U :=
  match type of U with
  | underlying ?v = ?t =>
      let k := eval cbv in (Value.Kind t) in
      assert (HK : Value.Kind v = k) by (unfold Value.Kind; rewrite U; reflexivity)
  end.

(** ** C1: sign-aware equality of a signed and an unsigned integer *)

Lemma eq_int_uint_value (va vb : Value) (wa : IntSize) (wb : UintSize) (a b : Z) :
  underlying va = VInt wa a -> underlying vb = VUint wb b ->
  validate.eq va vb
  = Ok ((if a >=? 0 then uint64 a =? b else false), None)
  /\ validate.eq vb va
     = Ok ((if a >=? 0 then b =? uint64 a else false), None).
Proof.
  intros Ha Hb. unfold validate.eq.
  rewrite (indirectInterface_operand va), (indirectInterface_operand vb).
  unfold operand. rewrite Ha, Hb. cbn [bind].
  unfold Value.Kind, Value.Int, Value.Uint. rewrite Ha, Hb. run_kinds.
  cbn [validate.kind_eqb negb bind].
  split; destruct (a >=? 0); reflexivity.
Qed.

(** C1. For a signed integer [a] and an unsigned integer [b] (of any width,
    of a predeclared or a defined type), [eq] returns true, in either
    argument order, exactly when [a] is non-negative and its magnitude is
    [b]; it returns false with no error when [a] is negative. *)
Theorem eq_int_uint_sign_aware (va vb : Value) (a b : Z) :
  Value.Int va = Ok a -> Value.Uint vb = Ok b ->
  in_int64 a -> in_uint64 b ->
  let truth := (0 <=? a) && (Z.abs a =? b) in
  validate.eq va vb = Ok (truth, None)
  /\ validate.eq vb va = Ok (truth, None)
  /\ (truth = true <-> 0 <= a /\ Z.abs a = b)
  /\ (a < 0 -> truth = false).
Proof.
  intros Ha Hb Ra Rb truth.
  destruct (Int_inv _ _ Ha) as [wa Ua]. destruct (Uint_inv _ _ Hb) as [wb Ub].
  destruct (eq_int_uint_value va vb wa wb a b Ua Ub) as [E1 E2].
  assert (Hif : (if a >=? 0 then uint64 a =? b else false) = truth).
  { unfold truth. rewrite Z.geb_leb. destruct (0 <=? a) eqn:Hs; cbn; [|reflexivity].
    apply Z.leb_le in Hs. unfold in_int64 in Ra.
    rewrite uint64_small by lia. now rewrite Z.abs_eq by lia. }
  assert (Hif' : (if a >=? 0 then b =? uint64 a else false) = truth).
  { rewrite <- Hif. destruct (a >=? 0); [apply Z.eqb_sym | reflexivity]. }
  rewrite E1, E2, Hif, Hif'. repeat split.
  - unfold truth in H. apply andb_prop in H. destruct H as [H _]. now apply Z.leb_le.
  - unfold truth in H. apply andb_prop in H. destruct H as [_ H]. now apply Z.eqb_eq.
  - intros [H1 H2]. unfold truth. apply andb_true_intro. split.
    + now apply Z.leb_le.
    + now apply Z.eqb_eq.
  - intros Hneg. unfold truth. apply andb_false_intro1. apply Z.leb_gt. exact Hneg.
Qed.

Lemma eq_int_uint_sign_aware_witness :
  (validate.eq (VInt I32 5) (VUint U8 5) = Ok (true, None)
   /\ validate.eq (VUint U8 5) (VInt I32 5) = Ok (true, None)
   /\ (true = true <-> 0 <= 5 /\ Z.abs 5 = 5)
   /\ (5 < 0 -> true = false))
  /\ validate.eq (VInt I64 (-1)) (VUint U64 (2 ^ 64 - 1)) = Ok (false, None).
Proof.
  split.
  - apply (eq_int_uint_sign_aware (VInt I32 5) (VUint U8 5) 5 5).
    + reflexivity.
    + reflexivity.
    + unfold in_int64. lia.
    + unfold in_uint64. lia.
  - apply (eq_int_uint_sign_aware (VInt I64 (-1)) (VUint U64 (2 ^ 64 - 1))
                                  (-1) (2 ^ 64 - 1)).
    + reflexivity.
    + reflexivity.
    + unfold in_int64. lia.
    + unfold in_uint64. lia.
Defined.

(** ** C8: equality by base kind *)

(** C8. [eq] classifies both operands.  When either has a kind that is not
    comparable it returns the error [errBadComparisonType]; when the base
    kinds differ and are not the int/uint pair it returns false with no
    error; when both have the same base kind it returns their native
    equality with no error. *)
Theorem eq_by_base_kind (arg1 arg2 : Value) :
  let v1 := operand arg1 in
  let v2 := operand arg2 in
  match validate.basicKindV2 (Value.Kind v1), validate.basicKindV2 (Value.Kind v2) with
  | (k1, None), (k2, None) =>
      if validate.kind_eqb k1 k2
      then validate.eq arg1 arg2 = Ok (native_eq v1 v2, None)
      else match k1, k2 with
           | validate.intKind, validate.uintKind
           | validate.uintKind, validate.intKind => True
           | _, _ => validate.eq arg1 arg2 = Ok (false, None)
           end
  | _, _ => validate.eq arg1 arg2 = Ok (false, Some validate.errBadComparisonType)
  end.
Proof.
  intros v1 v2. unfold validate.eq.
  rewrite (indirectInterface_operand arg1), (indirectInterface_operand arg2).
  fold v1 v2. cbn [bind]. generalize v1 v2. clear. intros v1 v2.
  destruct (validate.basicKindV2 (Value.Kind v1)) as [k1 [e1|]] eqn:B1.
  { destruct (basicKindV2_error _ _ _ B1) as [_ ->]. reflexivity. }
  destruct (validate.basicKindV2 (Value.Kind v2)) as [k2 [e2|]] eqn:B2.
  { destruct (basicKindV2_error _ _ _ B2) as [_ ->]. reflexivity. }
  apply basicKind_shape in B1. apply basicKind_shape in B2.
  unfold native_eq.
  destruct k1; try contradiction; destruct k2; try contradiction;
    repeat match goal with
           | H : exists _, _ |- _ => destruct H
           end;
    cbn [validate.kind_eqb negb bind]; try exact I;
    run_accessors;
    repeat match goal with
           | H : underlying _ = _ |- _ => rewrite !H
           end;
    reflexivity.
Qed.

(** ** C9: emptiness, kind by kind *)

Lemma underlying_zeroLike (v : Value) :
  underlying (zeroLike v) = zeroLike (underlying v).
Proof. induction v; cbn; auto. Qed.

Lemma typeNames_zeroLike (v : Value) : typeNames (zeroLike v) = typeNames v.
Proof. induction v; cbn; auto. now rewrite IHv. Qed.

Lemma Kind_zeroLike (v : Value) : Value.Kind (zeroLike v) = Value.Kind v.
Proof.
  unfold Value.Kind. rewrite underlying_zeroLike.
  destruct (underlying v); reflexivity.
Qed.

Lemma names_eqb_refl (l : list string) : names_eqb l l = true.
Proof. induction l; cbn; auto. now rewrite String.eqb_refl. Qed.

Lemma Kind_eqb_refl (k : Kind) : Kind_eqb k k = true.
Proof. destruct k; reflexivity. Qed.

Lemma Kind_eqb_eq (a b : Kind) : Kind_eqb a b = true <-> a = b.
Proof.
  split.
  - destruct a, b; cbn; intros H; try reflexivity; discriminate.
  - intros ->. apply Kind_eqb_refl.
Qed.

(** A value has the type of its zero value. *)
Lemma sameType_zeroLike (v : Value) : sameType v (zeroLike v) = true.
Proof.
  unfold sameType.
  now rewrite typeNames_zeroLike, Kind_zeroLike, names_eqb_refl, Kind_eqb_refl.
Qed.

Lemma rangeFrom_nonempty (i : Z) (c : ascii) (s : string) :
  utf8.rangeFrom i (String.String c s) <> [].
Proof.
  cbn [utf8.rangeFrom].
  destruct (utf8.DecodeRuneInString (String.String c s)) as [r w].
  destruct w as [|[|[|[|[|w]]]]]; try discriminate;
    destruct s as [|c1 [|c2 [|c3 s]]]; discriminate.
Qed.

(** A string has no rune exactly when it has no byte. *)
Lemma RuneCount_zero (s : string) :
  (utf8.RuneCountInString s =? 0) = (len_string s =? 0).
Proof.
  destruct s as [|c s]; [reflexivity|].
  unfold utf8.RuneCountInString, utf8.runes, utf8.range, len_string.
  pose proof (rangeFrom_nonempty 0 c s) as H.
  destruct (utf8.rangeFrom 0 (String.String c s)); [contradiction|].
  cbn [map List.length String.length].
  transitivity false; [|symmetry]; apply Z.eqb_neq; lia.
Qed.

Lemma SFeqb_zero64 (f : spec_float) :
  SFeqb f zero64 = true <-> exists s, f = S754_zero s.
Proof.
  unfold SFeqb, zero64. split.
  - destruct f as [s|s| |s m e]; cbn; try discriminate; eauto;
      destruct s; discriminate.
  - intros [s ->]. reflexivity.
Qed.

(** C9. [ValueIsEmpty] returns for every value, by the rule of its kind: an
    invalid value is empty; a string or an array is empty iff its length is
    0 (for a string in bytes, which is 0 iff the rune count is 0); a map or a
    slice iff its length is 0 or it is nil; a bool iff false; a signed,
    unsigned or float number iff it is zero; a pointer or an interface iff
    nil; any other value iff it is deeply equal to the zero value of its
    type.  So 0 is empty and -1 is not. *)
Theorem ValueIsEmpty_per_kind (v : Value) :
  match Value.Kind v with
  | Invalid => validate.ValueIsEmpty v = Ok true
  | String =>
      exists s, underlying v = VString s
        /\ validate.ValueIsEmpty v = Ok (len_string s =? 0)
        /\ (len_string s =? 0) = (utf8.RuneCountInString s =? 0)
  | Array =>
      exists n, Value.Len v = Ok n /\ validate.ValueIsEmpty v = Ok (n =? 0)
  | Map | Slice =>
      exists n isNil, Value.Len v = Ok n /\ Value.IsNil v = Ok isNil
        /\ validate.ValueIsEmpty v = Ok ((n =? 0) || isNil)
  | Bool =>
      exists b, Value.Bool v = Ok b /\ validate.ValueIsEmpty v = Ok (negb b)
  | Int | Int8 | Int16 | Int32 | Int64 =>
      exists i, Value.Int v = Ok i /\ validate.ValueIsEmpty v = Ok (i =? 0)
  | Uint | Uint8 | Uint16 | Uint32 | Uint64 | Uintptr =>
      exists u, Value.Uint v = Ok u /\ validate.ValueIsEmpty v = Ok (u =? 0)
  | Float32 | Float64 =>
      exists f, Value.Float v = Ok f
        /\ validate.ValueIsEmpty v = Ok (SFeqb f zero64)
        /\ (SFeqb f zero64 = true <-> exists s, f = S754_zero s)
  | Interface | Ptr =>
      exists isNil, Value.IsNil v = Ok isNil /\ validate.ValueIsEmpty v = Ok isNil
  | Complex64 | Complex128 | Chan | Func | Struct | UnsafePointer =>
      validate.ValueIsEmpty v = Ok (DeepEqual (IVal v) (IVal (zeroLike v)))
  end
  /\ validate.ValueIsEmpty (VInt I0 0) = Ok true
  /\ validate.ValueIsEmpty (VInt I0 (-1)) = Ok false.
Proof.
  split; [|split; reflexivity].
  destruct (underlying v) as [| | w ? | w ? | w ? | w ? ? | | | | | | | | | | | ? ?] eqn:U;
    try (now apply underlying_not_named in U);
    try destruct w; kind_of U; unfold validate.ValueIsEmpty, ZeroOfType;
    rewrite HK; cbv iota;
    repeat (progress (run_accessors; rewrite ?underlying_zeroLike, ?U;
                      cbn [bind zeroLike]));
    eauto.
  - (* float32 *) eexists. repeat split; try reflexivity; apply SFeqb_zero64.
  - (* float64 *) eexists. repeat split; try reflexivity; apply SFeqb_zero64.
  - (* string *) eexists. repeat split. symmetry. apply RuneCount_zero.
  - (* slice *) destruct elems as [xs|]; cbn.
    + exists (Z.of_nat (List.length xs)), false. repeat split.
      destruct (Z.of_nat (List.length xs) =? 0); reflexivity.
    + exists 0, true. repeat split.
  - (* map *) destruct entries as [xs|]; cbn.
    + exists (Z.of_nat (List.length xs)), false. repeat split.
      destruct (Z.of_nat (List.length xs) =? 0); reflexivity.
    + exists 0, true. repeat split.
Qed.

(** ** Decimal text of an integer *)

Lemma len_string_cons (c : ascii) (s : string) :
  len_string (String.String c s) = 1 + len_string s.
Proof. unfold len_string. cbn [String.length]. lia. Qed.

Lemma len_string_nonneg (s : string) : 0 <= len_string s.
Proof. unfold len_string. lia. Qed.

Lemma digitChar_isDigit (u : Z) : 0 <= u -> isDigitByte (strconv.digitChar (u mod 10)) = true.
Proof.
  intros Hu. pose proof (Z.mod_pos_bound u 10 ltac:(lia)) as Hm.
  assert (H : u mod 10 = 0 \/ u mod 10 = 1 \/ u mod 10 = 2 \/ u mod 10 = 3
              \/ u mod 10 = 4 \/ u mod 10 = 5 \/ u mod 10 = 6 \/ u mod 10 = 7
              \/ u mod 10 = 8 \/ u mod 10 = 9) by lia.
  repeat (destruct H as [-> | H]; [reflexivity|]). now rewrite H.
Qed.

Lemma pow10_succ (d : Z) : 0 <= d -> 10 ^ (d + 1) = 10 * 10 ^ d.
Proof. intros H. rewrite Z.pow_add_r by lia. lia. Qed.

(** The digit loop writes the decimal digits of [u], all of them when the
    fuel covers them, and nothing else. *)
Lemma digitsFrom_spec (fuel : nat) :
  forall (u : Z) (acc : string),
    (0 < fuel)%nat -> 0 <= u < 10 ^ Z.of_nat fuel ->
    exists d, decimal_digits u d
      /\ len_string (strconv.digitsFrom fuel u acc) = d + len_string acc
      /\ digitCount (strconv.digitsFrom fuel u acc) = d + digitCount acc.
Proof.
  induction fuel as [|fuel IH]; intros u acc Hf Hu; [lia|].
  cbn [strconv.digitsFrom].
  assert (Hdig : isDigitByte (strconv.digitChar (u mod 10)) = true)
    by (apply digitChar_isDigit; lia).
  destruct (u / 10 =? 0) eqn:Hq.
  - apply Z.eqb_eq in Hq. apply Z.div_small_iff in Hq; [|lia].
    exists 1. unfold decimal_digits. rewrite len_string_cons.
    cbn [digitCount]. rewrite Hdig. repeat split; try lia.
  - apply Z.eqb_neq in Hq.
    assert (H10 : 10 <= u).
    { destruct (Z_lt_le_dec u 10) as [Hlt|]; [|assumption].
      exfalso. apply Hq. apply Z.div_small. lia. }
    assert (Hfuel : (0 < fuel)%nat).
    { destruct fuel; [|lia]. cbn in Hu. lia. }
    assert (Hpow : 10 ^ Z.of_nat (S fuel) = 10 * 10 ^ Z.of_nat fuel).
    { rewrite Nat2Z.inj_succ. unfold Z.succ. apply pow10_succ. lia. }
    assert (Hdiv : 0 <= u / 10 < 10 ^ Z.of_nat fuel).
    { split; [apply Z.div_pos; lia|]. apply Z.div_lt_upper_bound; lia. }
    destruct (IH (u / 10) (String.String (strconv.digitChar (u mod 10)) acc) Hfuel Hdiv)
      as [d [[Hd1 [Hd2 Hd3]] [Hlen Hcnt]]].
    exists (d + 1). rewrite Hlen, Hcnt, len_string_cons.
    cbn [digitCount]. rewrite Hdig.
    pose proof (Z.div_mod u 10 ltac:(lia)) as Hdm.
    pose proof (Z.mod_pos_bound u 10 ltac:(lia)) as Hm.
    unfold decimal_digits. repeat split; try lia.
    + rewrite pow10_succ by lia. lia.
    + right. replace (d + 1 - 1) with (d - 1 + 1) by lia.
      rewrite pow10_succ by lia. destruct Hd3 as [[H0 _]|Hd3]; [lia|]. lia.
Qed.

Lemma decimal_digits_unique (n d d' : Z) :
  0 <= n -> decimal_digits n d -> decimal_digits n d' -> d = d'.
Proof.
  unfold decimal_digits. intros Hn [H1 [H2 H3]] [H1' [H2' H3']].
  destruct (Z.eq_dec n 0) as [->|Hnz].
  - destruct H3 as [[_ ->]|H3], H3' as [[_ ->]|H3']; try reflexivity; exfalso.
    + pose proof (Z.pow_pos_nonneg 10 (d' - 1) ltac:(lia) ltac:(lia)). lia.
    + pose proof (Z.pow_pos_nonneg 10 (d - 1) ltac:(lia) ltac:(lia)). lia.
    + pose proof (Z.pow_pos_nonneg 10 (d - 1) ltac:(lia) ltac:(lia)). lia.
  - destruct H3 as [[-> _]|H3]; [lia|]. destruct H3' as [[-> _]|H3']; [lia|].
    destruct (Z_lt_le_dec d d') as [Hlt|Hge].
    + exfalso. assert (10 ^ d <= 10 ^ (d' - 1)) by (apply Z.pow_le_mono_r; lia). lia.
    + destruct (Z_lt_le_dec d' d) as [Hlt'|Hge']; [|lia].
      exfalso. assert (10 ^ d' <= 10 ^ (d - 1)) by (apply Z.pow_le_mono_r; lia). lia.
Qed.

(** [FormatInt] of a 64-bit integer: its decimal digits, after a minus sign
    when it is negative. *)
Lemma FormatInt_spec (i : Z) :
  - 2 ^ 64 < i < 2 ^ 64 ->
  exists d, decimal_digits (Z.abs i) d
    /\ digitCount (strconv.FormatInt i) = d
    /\ len_string (strconv.FormatInt i) = d + (if i <? 0 then 1 else 0).
Proof.
  intros Hi. unfold strconv.FormatInt.
  assert (Hmax : 2 ^ 64 < 10 ^ Z.of_nat strconv.maxDigits) by (cbv; reflexivity).
  destruct (i <? 0) eqn:Hs.
  - apply Z.ltb_lt in Hs.
    destruct (digitsFrom_spec strconv.maxDigits (- i) "" ltac:(cbv; lia) ltac:(lia))
      as [d [Hd [Hlen Hcnt]]].
    exists d. rewrite Z.abs_neq by lia. rewrite len_string_cons, Hlen.
    cbn [digitCount]. rewrite Hcnt.
    change (isDigitByte "-") with false. change (digitCount "") with 0.
    change (len_string "") with 0.
    split; [assumption | split; lia].
  - apply Z.ltb_ge in Hs.
    destruct (digitsFrom_spec strconv.maxDigits i "" ltac:(cbv; lia) ltac:(lia))
      as [d [Hd [Hlen Hcnt]]].
    exists d. rewrite Z.abs_eq by lia. rewrite Hlen, Hcnt.
    change (digitCount "") with 0. change (len_string "") with 0.
    split; [assumption | split; lia].
Qed.

(** ** C4 and C10: the length of a value *)

Lemma Indirect_pointee (v : Value) : Indirect v = Ok (pointee v).
Proof.
  unfold Indirect, pointee, Value.Kind, Value.Elem.
  destruct (underlying v) as [| | w ? | w ? | w ? | w ? ? | | | | | | | p | | | | ? ?];
    try reflexivity; try (destruct w; reflexivity); try (destruct p; reflexivity).
Qed.

Lemma CalcLength_ValueLen (fmt_Sprint : any -> string) (v : Value) :
  validate.CalcLength fmt_Sprint (IVal v) = validate.ValueLen fmt_Sprint v.
Proof. destruct v; reflexivity. Qed.

(** C4, as the code has it.  [CalcLength] returns -1 for nil and otherwise
    looks through one pointer and returns: the rune count of a string; the
    element count of a map, array, channel or slice; for a signed integer
    the character count of its decimal text, which is its number of
    decimal digits plus one for the minus sign of a negative value; for an
    unsigned integer below 2^63 its number of decimal digits; for a float
    the length of its [fmt.Sprint] text; -1 for any other value. *)
Theorem CalcLength_by_kind (fmt_Sprint : any -> string) (val : any) :
  match val with
  | INil => validate.CalcLength fmt_Sprint val = Ok (-1)
  | IVal v =>
      let w := pointee v in
      match Value.Kind w with
      | String =>
          exists s, underlying w = VString s
            /\ validate.CalcLength fmt_Sprint val = Ok (utf8.RuneCountInString s)
      | Map | Array | Chan | Slice =>
          exists n, Value.Len w = Ok n
            /\ validate.CalcLength fmt_Sprint val = Ok n
      | Int | Int8 | Int16 | Int32 | Int64 =>
          exists i, Value.Int w = Ok i
            /\ validate.CalcLength fmt_Sprint val
               = Ok (len_string (strconv.FormatInt i))
            /\ (in_int64 i ->
                exists d, decimal_digits (Z.abs i) d
                  /\ len_string (strconv.FormatInt i)
                     = d + (if i <? 0 then 1 else 0))
      | Uint | Uint8 | Uint16 | Uint32 | Uint64 | Uintptr =>
          exists u, Value.Uint w = Ok u
            /\ (0 <= u < 2 ^ 63 ->
                exists d, decimal_digits u d
                  /\ validate.CalcLength fmt_Sprint val = Ok d)
      | Float32 | Float64 =>
          validate.CalcLength fmt_Sprint val = Ok (len_string (fmt_Sprint (IVal w)))
      | _ => validate.CalcLength fmt_Sprint val = Ok (-1)
      end
  end
  /\ validate.CalcLength fmt_Sprint (IVal (VString hello_acute)) = Ok 5
  /\ validate.CalcLength fmt_Sprint (IVal (VInt I0 12345)) = Ok 5
  /\ validate.CalcLength fmt_Sprint (IVal (VSlice (Some []))) = Ok 0.
Proof.
  split; [|repeat split; reflexivity].
  destruct val as [|v]; [reflexivity|].
  rewrite CalcLength_ValueLen. unfold validate.ValueLen.
  rewrite Indirect_pointee. cbn [bind]. cbv zeta.
  generalize (pointee v). clear v. intros w.
  destruct (underlying w) as [| | sz ? | sz ? | sz ? | sz ? ? | | | | | | | | | | | ? ?] eqn:U;
    try (now apply underlying_not_named in U);
    try destruct sz; kind_of U; rewrite HK; cbv iota;
    repeat (progress (run_accessors; rewrite ?U; cbn [bind]));
    eauto.
  all: try (eexists; split; [reflexivity|]; split; [reflexivity|];
            intros Hi; unfold in_int64 in Hi;
            destruct (FormatInt_spec i ltac:(lia)) as [d [Hd [_ Hlen]]]; eauto).
  all: eexists; split; [reflexivity|]; intros Hu;
    rewrite int64_small by (unfold in_int64; lia);
    destruct (FormatInt_spec u ltac:(lia)) as [d [Hd [_ Hlen]]];
    exists d; rewrite Z.abs_eq in Hd by lia;
    replace (u <? 0) with false in Hlen by (symmetry; apply Z.ltb_ge; lia);
    rewrite Hlen, Z.add_0_r; auto.
Qed.

(** C4 as stated fails on a negative integer: the length of -5 is 2, and
    its decimal text has one digit. *)
Lemma CalcLength_counts_minus_sign :
  validate.CalcLength (fun _ => EmptyString) (IVal (VInt I0 (-5))) = Ok 2
  /\ digitCount (strconv.FormatInt (-5)) = 1
  /\ decimal_digits (Z.abs (-5)) 1
  /\ validate.CalcLength (fun _ => EmptyString) (IVal (VInt I0 (-5)))
     <> Ok (digitCount (strconv.FormatInt (-5))).
Proof.
  split; [reflexivity|]. split; [reflexivity|]. split; [|discriminate].
  unfold decimal_digits. split; [lia|]. split; [lia|]. right. lia.
Qed.

(** C10. For an unsigned value [u] above 2^63 - 1, [ValueLen] formats
    [int64(u)], the negative number [u - 2^64]: the result is the character
    count of that text, a minus sign and the digits of [2^64 - u].  The
    largest uint64 has 20 digits and length 2. *)
Theorem ValueLen_uint64_wraps (fmt_Sprint : any -> string) (v : Value) (u : Z) :
  Value.Uint v = Ok u -> 2 ^ 63 <= u < 2 ^ 64 ->
  int64 u = u - 2 ^ 64
  /\ validate.ValueLen fmt_Sprint v = Ok (len_string (strconv.FormatInt (u - 2 ^ 64)))
  /\ (exists d, decimal_digits (2 ^ 64 - u) d
        /\ len_string (strconv.FormatInt (u - 2 ^ 64)) = 1 + d)
  /\ validate.ValueLen fmt_Sprint (VUint U64 (2 ^ 64 - 1)) = Ok 2
  /\ strconv.FormatInt (int64 (2 ^ 64 - 1)) = "-1"
  /\ decimal_digits (2 ^ 64 - 1) 20.
Proof.
  intros Hv Hu.
  assert (Hw : int64 u = u - 2 ^ 64).
  { unfold int64. replace (u + 2 ^ 63) with (u - 2 ^ 63 + 1 * 2 ^ 64) by lia.
    rewrite Z.mod_add by lia. rewrite Z.mod_small by lia. lia. }
  destruct (Uint_inv _ _ Hv) as [sz U].
  split; [exact Hw|]. split; [|split; [|split; [|split]]].
  - unfold validate.ValueLen. rewrite Indirect_pointee. unfold pointee.
    rewrite U. cbn [bind]. destruct sz; kind_of U; rewrite HK; cbv iota;
      unfold Value.Uint; rewrite U; cbn [bind]; now rewrite Hw.
  - destruct (FormatInt_spec (u - 2 ^ 64) ltac:(lia)) as [d [Hd [_ Hlen]]].
    exists d. rewrite Z.abs_neq in Hd by lia.
    replace (- (u - 2 ^ 64)) with (2 ^ 64 - u) in Hd by lia.
    replace (u - 2 ^ 64 <? 0) with true in Hlen by (symmetry; apply Z.ltb_lt; lia).
    split; [assumption | lia].
  - reflexivity.
  - reflexivity.
  - unfold decimal_digits. split; [lia|]. split; [lia|]. right. lia.
Qed.

Lemma ValueLen_uint64_wraps_witness :
  int64 (2 ^ 64 - 1) = 2 ^ 64 - 1 - 2 ^ 64
  /\ validate.ValueLen (fun _ => EmptyString) (VUint U64 (2 ^ 64 - 1))
     = Ok (len_string (strconv.FormatInt (2 ^ 64 - 1 - 2 ^ 64)))
  /\ (exists d, decimal_digits (2 ^ 64 - (2 ^ 64 - 1)) d
        /\ len_string (strconv.FormatInt (2 ^ 64 - 1 - 2 ^ 64)) = 1 + d)
  /\ validate.ValueLen (fun _ => EmptyString) (VUint U64 (2 ^ 64 - 1)) = Ok 2
  /\ strconv.FormatInt (int64 (2 ^ 64 - 1)) = "-1"
  /\ decimal_digits (2 ^ 64 - 1) 20.
Proof.
  apply (ValueLen_uint64_wraps (fun _ => EmptyString) (VUint U64 (2 ^ 64 - 1))
                               (2 ^ 64 - 1)).
  - reflexivity.
  - lia.
Defined.

(** The character count of the wrapped text can equal the digit count of
    the unsigned value: 10^19 has 20 digits and its length is 20. *)
Remark ValueLen_uint64_wrapped_may_agree (fmt_Sprint : any -> string) :
  validate.ValueLen fmt_Sprint (VUint U64 (10 ^ 19)) = Ok 20
  /\ strconv.FormatInt (int64 (10 ^ 19)) = "-8446744073709551616"
  /\ decimal_digits (10 ^ 19) 20.
Proof.
  split; [reflexivity|]. split; [reflexivity|].
  unfold decimal_digits. split; [lia|]. split; [lia|]. right. lia.
Qed.

(** ** C2: ordering two strings *)

(** C2, on the code.  [valueCompare] orders two strings by their byte
    lengths, not by their rune counts: the one-rune string e-acute is not
    lt the two-rune string ab, because both have two bytes. *)
Theorem valueCompare_strings_by_byte_length (mathutil_ToInt64 : any -> option Z) :
  validate.valueCompare mathutil_ToInt64 (IVal (VString e_acute)) (IVal (VString "ab")) "lt"
  = false
  /\ validate.compareInt64 (utf8.RuneCountInString e_acute)
                           (utf8.RuneCountInString "ab") "lt" = true
  /\ (forall (a b op : string),
        len_string a < 2 ^ 63 -> len_string b < 2 ^ 63 ->
        validate.valueCompare mathutil_ToInt64 (IVal (VString a)) (IVal (VString b)) op
        = validate.compareInt64 (len_string a) (len_string b) op).
Proof.
  split; [reflexivity|]. split; [reflexivity|].
  intros a b op Ha Hb. cbn [validate.valueCompare].
  pose proof (len_string_nonneg a). pose proof (len_string_nonneg b).
  rewrite !int64_small by (unfold in_int64; lia). reflexivity.
Qed.

(** ** C3: ordering two numbers *)

(** C3, on the code.  With an integer first operand and a float second
    operand [compareIntFloat] never converts to float: it converts both
    operands to int64 and compares those.  So 3 is not lt 3.5, while as
    floats 3 is lt 3.5. *)
Theorem compareIntFloat_float_second_operand
  (mathutil_Int64 : any -> option Z) (mathutil_ToFloat : any -> option spec_float)
  (w : IntSize) (i : Z) (f : spec_float) (op : string) :
  validate.compareIntFloat mathutil_Int64 mathutil_ToFloat
    (IVal (VInt w i)) (IVal (VFloat F64 f)) op
  = match mathutil_Int64 (IVal (VInt w i)), mathutil_Int64 (IVal (VFloat F64 f)) with
    | Some a, Some b => validate.compareInt64 a b op
    | _, _ => false
    end
  /\ validate.compareIntFloat mathutil.Int64 mathutil.ToFloat
       (IVal (VInt I0 3)) (IVal (VFloat F64 mathutil.three_and_a_half)) "lt" = false
  /\ validate.compareFloat64 (mathutil.float64_of_int 3) mathutil.three_and_a_half "lt"
     = true
  /\ validate.compareIntFloat mathutil.Int64 mathutil.ToFloat
       (IVal (VFloat F64 mathutil.three_and_a_half)) (IVal (VInt I0 4)) "lt" = true.
Proof.
  split; [|repeat split; reflexivity].
  cbn [validate.compareIntFloat].
  destruct (mathutil_Int64 (IVal (VInt w i))); [|reflexivity].
  destruct (mathutil_Int64 (IVal (VFloat F64 f))); reflexivity.
Qed.

(** ** C5: membership *)

Lemma catch_returns {A : Type} (body : result A) (handler : PanicVal -> A) :
  exists a, catch body handler = Ok a.
Proof. destruct body; cbn; eauto. Qed.

(** C5, on the code.  [includeElement] reads the type of the container
    before it installs its deferred [recover]: a nil container makes that
    read panic and the panic reaches the caller.  For every other container
    the call returns, whatever [IsEqual] does, and a container without
    length or index, such as an integer, is reported as (false, false). *)
Theorem includeElement_nil_container_panics
  (IsEqual : any -> any -> result bool) (element : any) :
  validate.includeElement IsEqual INil element
  = Panic (ValueError "reflect.Value.Type" "invalid")
  /\ (forall v : Value, Value.IsValid v = true ->
        exists ok found,
          validate.includeElement IsEqual (IVal v) element = Ok (ok, found))
  /\ validate.includeElement IsEqual (IVal (VInt I0 42)) element = Ok (false, false).
Proof.
  split; [reflexivity|]. split; [|reflexivity].
  intros v Hv. unfold validate.includeElement, Value.TypeKind.
  cbn [ValueOf]. unfold Value.IsValid in Hv.
  destruct (Value.Kind v) eqn:HK; try discriminate; cbn [bind];
    try (match goal with
         | |- exists ok found, catch ?b ?h = _ =>
             destruct (catch_returns b h) as [[ok found] E];
             exists ok, found; exact E
         end).
  eauto.
Qed.

(** ** C6: the signature of a registered function *)

Lemma Type_eqb_eq (a b : Type_) : Type_eqb a b = true <-> a = b.
Proof.
  unfold Type_eqb. destruct a as [na ka], b as [nb kb]. cbn. split.
  - intros H. apply andb_prop in H. destruct H as [H1 H2].
    apply String.eqb_eq in H1. apply Kind_eqb_eq in H2. now subst.
  - intros H. injection H as -> ->. now rewrite String.eqb_refl, Kind_eqb_refl.
Qed.

Lemma Kind_Func_shape (v : Value) :
  Kind_eqb (Value.Kind v) Func = true -> exists sig code, underlying v = VFunc sig code.
Proof.
  unfold Value.Kind.
  destruct (underlying v) as [| | w ? | w ? | w ? | w ? ? | | | | | | | | | | | ? ?];
    try destruct w; cbn; try discriminate; eauto.
Qed.

Lemma goodFunc_shape (sig : FuncType) :
  (validate.goodFunc sig = Ok true /\ filter_shape sig)
  \/ (validate.goodFunc sig = Ok false /\ ~ filter_shape sig).
Proof.
  unfold validate.goodFunc, filter_shape, NumOut, Out, NumOut.
  change (Z.to_nat 1) with 1%nat.
  destruct (Outs sig) as [|t0 [|t1 [|t2 rest]]] eqn:HO.
  - right. split; [reflexivity|]. intros [[t H]|[t H]]; discriminate.
  - left. split; [reflexivity|]. left. eauto.
  - cbn. destruct (Type_eqb t1 validate.errorType) eqn:HE.
    + left. split; [reflexivity|]. right. apply Type_eqb_eq in HE. subst. eauto.
    + right. split; [reflexivity|]. intros [[t H]|[t H]]; [discriminate|].
      injection H as _ H. subst t1. rewrite (proj2 (Type_eqb_eq _ _) eq_refl) in HE.
      discriminate.
  - right. split.
    + cbn [List.length]. rewrite !Nat2Z.inj_succ.
      destruct (Z.succ (Z.succ (Z.succ (Z.of_nat (List.length rest)))) =? 1) eqn:E1;
        [apply Z.eqb_eq in E1; lia|].
      destruct (Z.succ (Z.succ (Z.succ (Z.of_nat (List.length rest)))) =? 2) eqn:E2;
        [apply Z.eqb_eq in E2; lia|]. reflexivity.
    + intros [[t H]|[t H]]; discriminate.
Qed.

Lemma validator_out_shape (sig : FuncType) :
  ((if negb (NumOut sig =? 1) then Ok true
    else out0 <- Out sig 0 ;; Ok (negb (Kind_eqb (Type_Kind out0) Bool))) = Ok false
   /\ validator_shape sig)
  \/ ((if negb (NumOut sig =? 1) then Ok true
       else out0 <- Out sig 0 ;; Ok (negb (Kind_eqb (Type_Kind out0) Bool))) = Ok true
      /\ ~ validator_shape sig).
Proof.
  unfold validator_shape, NumOut, Out, NumOut.
  change (Z.to_nat 0) with 0%nat.
  destruct (Outs sig) as [|t0 [|t1 rest]] eqn:HO.
  - right. split; [reflexivity|]. intros [t [H _]]. discriminate.
  - cbn. destruct (Kind_eqb (Type_Kind t0) Bool) eqn:HK.
    + left. split; [reflexivity|]. apply Kind_eqb_eq in HK. eauto.
    + right. split; [reflexivity|]. intros [t [H Hb]]. injection H as <-.
      rewrite Hb in HK. discriminate.
  - right. split.
    + cbn [List.length]. rewrite !Nat2Z.inj_succ.
      destruct (Z.succ (Z.succ (Z.of_nat (List.length rest))) =? 1) eqn:E1;
        [apply Z.eqb_eq in E1; lia|]. reflexivity.
    + intros [t [H _]]. discriminate.
Qed.

Lemma func_with_parameter_unique (v fv : Value) (sig sig' : FuncType) (code : option FuncId) :
  underlying v = VFunc sig code -> func_with_parameter (IVal v) fv sig' ->
  sig' = sig /\ fv = v.
Proof.
  intros U [H [[code' U'] _]]. injection H as <-.
  rewrite U in U'. injection U' as <- _. auto.
Qed.

Ltac by_panicf_now := unfold by_panicf, validate.panicf; eexists; reflexivity.

Lemma checkValidatorFunc_spec
  (unicode_IsLetter unicode_IsDigit : Z -> bool) (name : string) (fn : any) :
  match validate.checkValidatorFunc unicode_IsLetter unicode_IsDigit name fn with
  | Ok fv =>
      validate.goodName unicode_IsLetter unicode_IsDigit name = true
      /\ exists sig, func_with_parameter fn fv sig /\ validator_shape sig
  | Panic p =>
      by_panicf p
      /\ ~ (validate.goodName unicode_IsLetter unicode_IsDigit name = true
            /\ exists fv sig, func_with_parameter fn fv sig /\ validator_shape sig)
  end.
Proof.
  unfold validate.checkValidatorFunc.
  destruct (validate.goodName unicode_IsLetter unicode_IsDigit name) eqn:HN; cbn [negb].
  2:{ split; [by_panicf_now|]. intros [H _]. discriminate. }
  destruct fn as [|v]; cbn [validate.isNilAny ValueOf orb].
  { split; [by_panicf_now|]. intros [_ [fv [sig [[H _] _]]]]. discriminate. }
  destruct (Kind_eqb (Value.Kind v) Func) eqn:HK; cbn [negb].
  2:{ split; [by_panicf_now|]. intros [_ [fv [sig [[H [[code U] _]] _]]]].
      injection H as <-. unfold Value.Kind in HK. rewrite U in HK. discriminate. }
  destruct (Kind_Func_shape v HK) as [sig [code U]].
  unfold Value.FuncType_. rewrite U. cbn [bind]. unfold NumIn.
  destruct (Ins sig) as [|p ps] eqn:HI.
  { cbn [List.length Z.of_nat Z.eqb]. split; [by_panicf_now|].
    intros [_ [fv [sig' [Hf _]]]].
    destruct (func_with_parameter_unique _ _ _ _ _ U Hf) as [-> _].
    destruct Hf as [_ [_ Hne]]. now apply Hne. }
  replace (Z.of_nat (List.length (p :: ps)) =? 0) with false
    by (symmetry; apply Z.eqb_neq; cbn [List.length]; lia).
  destruct (validator_out_shape sig) as [[-> HV]|[-> HV]]; cbn [bind].
  - split; [reflexivity|]. exists sig. split; [|assumption].
    split; [reflexivity|]. split; [eauto|]. rewrite HI. discriminate.
  - split; [by_panicf_now|]. intros [_ [fv [sig' [Hf Hs]]]].
    destruct (func_with_parameter_unique _ _ _ _ _ U Hf) as [-> _]. contradiction.
Qed.

Lemma checkFilterFunc_spec
  (unicode_IsLetter unicode_IsDigit : Z -> bool) (name : string) (fn : any) :
  match validate.checkFilterFunc unicode_IsLetter unicode_IsDigit name fn with
  | Ok fv =>
      validate.goodName unicode_IsLetter unicode_IsDigit name = true
      /\ exists sig, func_with_parameter fn fv sig /\ filter_shape sig
  | Panic p =>
      by_panicf p
      /\ ~ (validate.goodName unicode_IsLetter unicode_IsDigit name = true
            /\ exists fv sig, func_with_parameter fn fv sig /\ filter_shape sig)
  end.
Proof.
  unfold validate.checkFilterFunc.
  destruct (validate.goodName unicode_IsLetter unicode_IsDigit name) eqn:HN; cbn [negb].
  2:{ split; [by_panicf_now|]. intros [H _]. discriminate. }
  destruct fn as [|v]; cbn [validate.isNilAny ValueOf orb].
  { split; [by_panicf_now|]. intros [_ [fv [sig [[H _] _]]]]. discriminate. }
  destruct (Kind_eqb (Value.Kind v) Func) eqn:HK; cbn [negb].
  2:{ split; [by_panicf_now|]. intros [_ [fv [sig [[H [[code U] _]] _]]]].
      injection H as <-. unfold Value.Kind in HK. rewrite U in HK. discriminate. }
  destruct (Kind_Func_shape v HK) as [sig [code U]].
  unfold Value.FuncType_. rewrite U. cbn [bind]. unfold NumIn.
  destruct (Ins sig) as [|p ps] eqn:HI.
  { cbn [List.length Z.of_nat Z.eqb]. split; [by_panicf_now|].
    intros [_ [fv [sig' [Hf _]]]].
    destruct (func_with_parameter_unique _ _ _ _ _ U Hf) as [-> _].
    destruct Hf as [_ [_ Hne]]. now apply Hne. }
  replace (Z.of_nat (List.length (p :: ps)) =? 0) with false
    by (symmetry; apply Z.eqb_neq; cbn [List.length]; lia).
  destruct (goodFunc_shape sig) as [[-> HF]|[-> HF]]; cbn [bind negb].
  - split; [reflexivity|]. exists sig. split; [|assumption].
    split; [reflexivity|]. split; [eauto|]. rewrite HI. discriminate.
  - split; [by_panicf_now|]. intros [_ [fv [sig' [Hf Hs]]]].
    destruct (func_with_parameter_unique _ _ _ _ _ U Hf) as [-> _]. contradiction.
Qed.

Lemma func_with_parameter_value (fn : any) (fv fv' : Value) (sig sig' : FuncType) :
  func_with_parameter fn fv sig -> func_with_parameter fn fv' sig' -> fv' = fv.
Proof. intros [H _] [H' _]. rewrite H in H'. now injection H'. Qed.

(** C6. [checkValidatorFunc] returns the function exactly when the name is
    good, the argument is a function with a parameter and its results are
    one boolean; [checkFilterFunc] exactly when, instead, its results are
    one value of any type or two values the second of which is [error].
    In every other case each of them panics through [panicf]; neither has
    an error result. *)
Theorem registration_checks_return_shape
  (unicode_IsLetter unicode_IsDigit : Z -> bool) (name : string) (fn : any) :
  let goodName := validate.goodName unicode_IsLetter unicode_IsDigit in
  let checkValidatorFunc := validate.checkValidatorFunc unicode_IsLetter unicode_IsDigit in
  let checkFilterFunc := validate.checkFilterFunc unicode_IsLetter unicode_IsDigit in
  (forall fv, checkValidatorFunc name fn = Ok fv <->
              goodName name = true
              /\ exists sig, func_with_parameter fn fv sig /\ validator_shape sig)
  /\ (forall fv, checkFilterFunc name fn = Ok fv <->
                 goodName name = true
                 /\ exists sig, func_with_parameter fn fv sig /\ filter_shape sig)
  /\ ((exists fv, checkValidatorFunc name fn = Ok fv)
      \/ exists p, checkValidatorFunc name fn = Panic p /\ by_panicf p)
  /\ ((exists fv, checkFilterFunc name fn = Ok fv)
      \/ exists p, checkFilterFunc name fn = Panic p /\ by_panicf p).
Proof.
  intros goodName checkValidatorFunc checkFilterFunc.
  pose proof (checkValidatorFunc_spec unicode_IsLetter unicode_IsDigit name fn) as HV.
  pose proof (checkFilterFunc_spec unicode_IsLetter unicode_IsDigit name fn) as HF.
  fold checkValidatorFunc goodName in HV. fold checkFilterFunc goodName in HF.
  split; [|split; [|split]].
  - intros fv. split.
    + intros E. rewrite E in HV. exact HV.
    + intros [HN [sig [Hf Hs]]].
      destruct (checkValidatorFunc name fn) as [fv'|p].
      * destruct HV as [_ [sig' [Hf' _]]].
        now rewrite (func_with_parameter_value _ _ _ _ _ Hf Hf').
      * exfalso. apply (proj2 HV). eauto.
  - intros fv. split.
    + intros E. rewrite E in HF. exact HF.
    + intros [HN [sig [Hf Hs]]].
      destruct (checkFilterFunc name fn) as [fv'|p].
      * destruct HF as [_ [sig' [Hf' _]]].
        now rewrite (func_with_parameter_value _ _ _ _ _ Hf Hf').
      * exfalso. apply (proj2 HF). eauto.
  - destruct (checkValidatorFunc name fn) as [fv|p]; [eauto|].
    right. exists p. split; [reflexivity | exact (proj1 HV)].
  - destruct (checkFilterFunc name fn) as [fv|p]; [eauto|].
    right. exists p. split; [reflexivity | exact (proj1 HF)].
Qed.

(** ** C7: calling a function value *)

Lemma CallByValue_in_map (args : list any) :
  validate.CallByValue_in args = map sanitized args.
Proof.
  unfold validate.CallByValue_in. apply map_ext. intros a.
  unfold sanitized, Value.IsValid. destruct (Value.Kind (ValueOf a)); reflexivity.
Qed.

Lemma sanitized_valid (a : any) : Value.IsValid (sanitized a) = true.
Proof.
  unfold sanitized. destruct (Value.IsValid (ValueOf a)) eqn:H; [exact H | reflexivity].
Qed.

Lemma no_invalid_slot (args : list any) :
  existsb (fun x => negb (Value.IsValid x)) (validate.CallByValue_in args) = false.
Proof.
  rewrite CallByValue_in_map. induction args as [|a args IH]; [reflexivity|].
  cbn [map existsb]. now rewrite sanitized_valid, IH.
Qed.

(** C7. [CallByValue] passes one slot per argument: the reflected argument
    when that is valid, the [NilObject] sentinel when it is not, as for a
    nil argument.  No slot is invalid, so the panic of [Call] on a zero
    Value argument never occurs. *)
Theorem CallByValue_passes_no_invalid_slot
  (callee : FuncId -> list Value -> list Value + string)
  (assignable : FuncType -> nat -> Value -> bool)
  (fv : Value) (args : list any) :
  let slots := validate.CallByValue_in args in
  List.length slots = List.length args
  /\ (forall k a, nth_error args k = Some a ->
        nth_error slots k
        = Some (if Value.IsValid (ValueOf a) then ValueOf a else validate.nilRVal))
  /\ (forall k, nth_error args k = Some INil -> nth_error slots k = Some validate.nilRVal)
  /\ Forall (fun x => Value.IsValid x = true) slots
  /\ validate.IsNilObj (IVal validate.nilRVal) = true
  /\ validate.CallByValue callee assignable fv args
     <> Panic (RuntimeError "reflect: Call using zero Value argument").
Proof.
  intros slots. unfold slots. clear slots.
  split; [|split; [|split; [|split; [|split]]]].
  - rewrite CallByValue_in_map. apply length_map.
  - intros k a H. rewrite CallByValue_in_map.
    rewrite nth_error_map, H. reflexivity.
  - intros k H. rewrite CallByValue_in_map.
    rewrite nth_error_map, H. reflexivity.
  - rewrite CallByValue_in_map. apply Forall_forall. intros x Hx.
    apply in_map_iff in Hx. destruct Hx as [a [<- _]]. apply sanitized_valid.
  - reflexivity.
  - unfold validate.CallByValue, Call, validate.panicf, Value.notKind.
    rewrite no_invalid_slot.
    destruct (Value.Kind fv); try discriminate.
    destruct (underlying fv) as [| | | | | | | | | | | sig [f|] | | | | |];
      try discriminate.
    repeat match goal with
           | |- context [if ?c then _ else _] => destruct c
           end; try discriminate.
    destruct (callee f (validate.CallByValue_in args)); discriminate.
Qed.

(* ================================================================= *)
(** * Further properties of util.go *)

(** ** Runes of a string *)

(** One turn of [range]: a rune of one to four bytes, then the rest. *)
Lemma rangeFrom_step (i : Z) (c : ascii) (r0 : string) :
  exists r k tl,
    utf8.rangeFrom i (String.String c r0) = (i, r) :: utf8.rangeFrom (i + Z.of_nat k) tl
    /\ (1 <= k <= 4)%nat
    /\ String.length (String.String c r0) = (k + String.length tl)%nat.
Proof.
  cbn [utf8.rangeFrom].
  destruct (utf8.DecodeRuneInString (String.String c r0)) as [r w].
  destruct w as [|[|[|[|[|w]]]]]; destruct r0 as [|c1 [|c2 [|c3 r3]]];
    first [ exists r, 1%nat; eexists; split; [reflexivity|]; split; [lia | reflexivity]
          | exists r, 2%nat; eexists; split; [reflexivity|]; split; [lia | reflexivity]
          | exists r, 3%nat; eexists; split; [reflexivity|]; split; [lia | reflexivity]
          | exists r, 4%nat; eexists; split; [reflexivity|]; split; [lia | reflexivity] ].
Qed.

Lemma rangeFrom_indices (n : nat) :
  forall (s : string) (i : Z),
    (String.length s <= n)%nat ->
    Forall (fun p => i <= fst p) (utf8.rangeFrom i s).
Proof.
  induction n as [|n IH]; intros s i Hn.
  - destruct s; [constructor | cbn in Hn; lia].
  - destruct s as [|c r0]; [constructor|].
    destruct (rangeFrom_step i c r0) as [r [k [tl [E [Hk Hl]]]]].
    rewrite E. constructor; [cbn; lia|].
    assert (Ht : (String.length tl <= n)%nat) by lia.
    specialize (IH tl (i + Z.of_nat k) Ht).
    eapply Forall_impl; [|exact IH]. intros p Hp. cbn in Hp |- *. lia.
Qed.

Lemma rangeFrom_count (n : nat) :
  forall (s : string) (i : Z),
    (String.length s <= n)%nat ->
    (List.length (utf8.rangeFrom i s) <= String.length s
     /\ String.length s <= 4 * List.length (utf8.rangeFrom i s))%nat.
Proof.
  induction n as [|n IH]; intros s i Hn.
  - destruct s; [cbn; lia | cbn in Hn; lia].
  - destruct s as [|c r0]; [cbn; lia|].
    destruct (rangeFrom_step i c r0) as [r [k [tl [E [Hk Hl]]]]].
    rewrite E, Hl. cbn [List.length].
    assert (Ht : (String.length tl <= n)%nat) by lia.
    specialize (IH tl (i + Z.of_nat k) Ht). lia.
Qed.

(** ** goodName *)

Section GoodName.

Variable unicode_IsLetter : Z -> bool.
Variable unicode_IsDigit : Z -> bool.

Lemma goodName_range_later (l : list (Z * Z)) :
  Forall (fun p => 0 < fst p) l ->
  validate.goodName_range unicode_IsLetter unicode_IsDigit l
  = forallb (nameRune unicode_IsLetter unicode_IsDigit) (map snd l).
Proof.
  induction 1 as [|[i r] l Hi _ IH]; [reflexivity|].
  cbn [validate.goodName_range map snd forallb]. cbn [fst] in Hi.
  rewrite IH. unfold nameRune.
  replace (i =? 0) with false by (symmetry; apply Z.eqb_neq; lia).
  destruct (r =? 95); cbn; [reflexivity|].
  destruct (unicode_IsLetter r), (unicode_IsDigit r); reflexivity.
Qed.

(** X1. [goodName] accepts exactly the non-empty names whose first rune is
    an underscore or a letter and whose other runes are underscores,
    letters or digits. *)
Theorem goodName_by_runes (name : string) :
  validate.goodName unicode_IsLetter unicode_IsDigit name
  = match utf8.runes name with
    | [] => false
    | r :: rest =>
        nameStart unicode_IsLetter r
        && forallb (nameRune unicode_IsLetter unicode_IsDigit) rest
    end.
Proof.
  unfold validate.goodName, utf8.runes, utf8.range.
  destruct name as [|c r0]; [reflexivity|].
  cbn [String.eqb].
  destruct (rangeFrom_step 0 c r0) as [r [k [tl [E [Hk Hl]]]]].
  rewrite E. cbn [map snd validate.goodName_range].
  rewrite goodName_range_later.
  - unfold nameStart. destruct (r =? 95); cbn; [reflexivity|].
    destruct (unicode_IsLetter r); cbn; [|reflexivity].
    reflexivity.
  - pose proof (rangeFrom_indices (String.length tl) tl (0 + Z.of_nat k) (Nat.le_refl _)) as H.
    eapply Forall_impl; [|exact H]. intros p Hp. cbn in Hp. lia.
Qed.

End GoodName.

(** ** compareInt64 and compareFloat64 *)


Lemma SFcompare_swap (a b : spec_float) :
  SFcompare b a = option_map CompOpp (SFcompare a b).
Proof.
  destruct a as [sa|sa| |sa ma ea], b as [sb|sb| |sb mb eb]; cbn;
    try destruct sa; try destruct sb; try reflexivity;
    rewrite (Z.compare_antisym ea eb); destruct (ea ?= eb); cbn; try reflexivity;
    change (Pos.compare_cont Eq mb ma) with (Pos.compare mb ma);
    change (Pos.compare_cont Eq ma mb) with (Pos.compare ma mb);
    rewrite (Pos.compare_antisym ma mb);
    destruct (Pos.compare ma mb); reflexivity.
Qed.


(** ** getVariadicKind *)

(** X4. [getVariadicKind] inverts the name of a slice type: on the name of
    a slice of a signed or unsigned integer (not uintptr) or of strings it
    gives the element kind, on the name of any other slice of a basic kind
    Invalid, on the empty-interface slice Interface; and a result other
    than Invalid determines the name. *)
Theorem getVariadicKind_inverse :
  (forall k, util.getVariadicKind ("[]" ++ Kind_String k)
             = if variadicElem k then k else Invalid)
  /\ util.getVariadicKind "[]interface {}" = Interface
  /\ (forall s k, util.getVariadicKind s = k -> k <> Invalid ->
        s = "[]" ++ (if Kind_eqb k Interface then "interface {}" else Kind_String k)).
Proof.
  split; [|split].
  - intros k. destruct k; reflexivity.
  - reflexivity.
  - intros s k. unfold util.getVariadicKind.
    repeat match goal with
           | |- context [String.eqb s ?lit] =>
               destruct (String.eqb_spec s lit) as [->|_];
               [intros <- _; reflexivity|]
           end.
    intros <- H. now contradiction H.
Qed.

(** ** parseArgString and stringSplit *)

Section ArgStrings.

Variable strings_TrimSpace : string -> string.
Variable strings_Split : string -> string -> list string.

Lemma stringSplit_range_filter (vals ss : list string) :
  util.stringSplit_range strings_TrimSpace vals ss
  = (ss ++ filter nonEmpty (map strings_TrimSpace vals))%list.
Proof.
  revert ss. induction vals as [|val rest IH]; intros ss; cbn [util.stringSplit_range].
  - cbn. now rewrite app_nil_r.
  - cbn [map filter]. unfold nonEmpty at 1.
    destruct (negb (String.eqb (strings_TrimSpace val) "")); rewrite IH.
    + now rewrite <- app_assoc.
    + reflexivity.
Qed.

(** X5. [stringSplit] returns the pieces of the trimmed string, each
    trimmed, without the empty ones, in order.  [parseArgString] returns
    nothing for the empty string, a one-byte string as it is (be it a
    comma or a space), and otherwise the split at commas; no element it
    returns is empty. *)
Theorem parseArgString_elements (argStr : string) :
  let stringSplit := util.stringSplit strings_TrimSpace strings_Split in
  let parseArgString := util.parseArgString strings_TrimSpace strings_Split in
  (forall str sep,
     stringSplit str sep
     = if String.eqb (strings_TrimSpace str) "" then []
       else filter nonEmpty
              (map strings_TrimSpace (strings_Split (strings_TrimSpace str) sep)))
  /\ parseArgString "" = []
  /\ (len_string argStr = 1 -> parseArgString argStr = [argStr])
  /\ (1 < len_string argStr -> parseArgString argStr = stringSplit argStr ",")
  /\ Forall (fun s => s <> "") (parseArgString argStr).
Proof.
  intros stringSplit parseArgString.
  assert (Hsplit : forall str sep,
             stringSplit str sep
             = if String.eqb (strings_TrimSpace str) "" then []
               else filter nonEmpty
                      (map strings_TrimSpace (strings_Split (strings_TrimSpace str) sep))).
  { intros str sep. unfold stringSplit, util.stringSplit.
    destruct (String.eqb (strings_TrimSpace str) ""); [reflexivity|].
    apply stringSplit_range_filter. }
  assert (Hlen0 : argStr <> "" -> len_string argStr <> 0).
  { destruct argStr; [congruence|]. intros _. rewrite len_string_cons.
    pose proof (len_string_nonneg argStr). lia. }
  split; [exact Hsplit|]. split; [reflexivity|].
  unfold parseArgString, util.parseArgString. fold stringSplit.
  destruct (String.eqb_spec argStr "") as [->|Hne].
  - split; [intros H; cbv in H; discriminate|].
    split; [intros H; cbv in H; discriminate | constructor].
  - destruct (Z.eqb_spec (len_string argStr) 1) as [H1|H1].
    + split; [reflexivity|]. split; [lia|]. constructor; [exact Hne | constructor].
    + split; [contradiction|]. split; [reflexivity|].
      rewrite Hsplit. destruct (String.eqb (strings_TrimSpace argStr) ""); [constructor|].
      apply Forall_forall. intros s Hs. apply filter_In in Hs. destruct Hs as [_ Hs].
      unfold nonEmpty in Hs. apply negb_true_iff in Hs. now apply String.eqb_neq.
Qed.

End ArgStrings.

(** ** buildArgs *)

Lemma copy_over_fresh (args : list any) :
  util.copy (util.make_any (List.length args)) args = args.
Proof.
  unfold util.make_any. induction args as [|a args IH]; [reflexivity|].
  cbn [List.length repeat util.copy]. now rewrite IH.
Qed.

(** X6. [buildArgs] puts the value in front of the arguments, so the call
    receives the slot of the value first and then the slots of the
    arguments. *)
Theorem buildArgs_prepends (val : any) (args : list any) :
  util.buildArgs val args = val :: args
  /\ validate.CallByValue_in (util.buildArgs val args)
     = sanitized val :: validate.CallByValue_in args.
Proof.
  assert (E : util.buildArgs val args = val :: args).
  { unfold util.buildArgs. rewrite Nat.add_1_r.
    change (util.make_any (S (List.length args)))
      with (INil :: util.make_any (List.length args)).
    cbv beta iota zeta. now rewrite copy_over_fresh. }
  split; [exact E|]. rewrite E, !CallByValue_in_map. reflexivity.
Qed.

(** ** valueToInt64 and convToBasicType *)

(** X7. In strict mode [valueToInt64] converts exactly the values of the
    predeclared integer types other than uintptr, a signed one to itself
    and an unsigned one through int64; what it converts in strict mode it
    converts to the same number otherwise, and [convToBasicType] gives
    that number too.  Whenever it fails with an error of this package the
    number is 0 and the error is [ErrConvertFail]. *)
Theorem valueToInt64_strict_mode
  (strconv_ParseInt : string -> Z * option string) (filter_Trim : string -> string)
  (float_to_int64 : spec_float -> Z) (v : any) :
  let valueToInt64 := util.valueToInt64 strconv_ParseInt filter_Trim float_to_int64 in
  (forall i, valueToInt64 v true = (i, None) <->
     (exists w, v = IVal (VInt w i))
     \/ (exists w u, v = IVal (VUint w u) /\ w <> Uptr /\ i = int64 u))
  /\ (forall i, valueToInt64 v true = (i, None) -> valueToInt64 v false = (i, None))
  /\ (forall i, valueToInt64 v true = (i, None) ->
        util.convToBasicType v = Ok (IVal (VInt I64 i), None))
  /\ (forall strict i e, valueToInt64 v strict = (i, Some (util.PkgErr e)) ->
        i = 0 /\ e = validate.ErrConvertFail).
Proof.
  intros valueToInt64. unfold valueToInt64, util.valueToInt64. clear valueToInt64.
  destruct v as [|v]; [|destruct v as [| | w n | w u | w f | | s | | | | | | | | | |]].
  all: try (split; [intros i; split;
                    [discriminate | intros [[w' H]|[w' [u' [H _]]]]; discriminate]|];
            split; [discriminate|]; split; [discriminate|];
            intros strict i e H; destruct strict; injection H as <- <-; auto).
  - (* signed *)
    split; [intros i; split|].
    + intros H. injection H as <-. left. eauto.
    + intros [[w' H]|[w' [u' [H _]]]]; [injection H as _ <-; reflexivity | discriminate].
    + split; [auto|]. split; [|discriminate].
      intros i H. injection H as <-. destruct w; reflexivity.
  - (* unsigned *)
    destruct w;
      try (split; [intros i; split;
                   [intros H; injection H as <-; right; do 2 eexists;
                    split; [reflexivity|]; split; [discriminate | reflexivity]
                   | intros [[w' H]|[w' [u' [H [_ ->]]]]];
                     [discriminate | injection H as _ <-; reflexivity]]|];
           split; [auto|]; split; [|discriminate];
           intros i H; injection H as <-; reflexivity).
    split; [intros i; split;
            [discriminate
            | intros [[w' H]|[w' [u' [H [Hw _]]]]];
              [discriminate | injection H as <- _; now contradiction Hw]]|].
    split; [discriminate|]. split; [discriminate|].
    intros strict i e H. destruct strict; injection H as <- <-; auto.
  - (* float *)
    split; [intros i; split;
            [discriminate | intros [[w' H]|[w' [u' [H _]]]]; discriminate]|].
    split; [discriminate|]. split; [discriminate|].
    intros strict i e H. destruct strict; [injection H as <- <-; auto | discriminate].
  - (* string *)
    split; [intros i; split;
            [discriminate | intros [[w' H]|[w' [u' [H _]]]]; discriminate]|].
    split; [discriminate|]. split; [discriminate|].
    intros strict i e H. destruct strict; [injection H as <- <-; auto|].
    destruct (strconv_ParseInt (filter_Trim s)) as [n [t|]]; discriminate.
Qed.


(** ** removeValuePtr *)

Lemma removeValuePtr_not_ptr :
  forall t : Value, Value.Kind (util.removeValuePtr t) <> Ptr.
Proof.
  fix IH 1. intros t.
  destruct t as [| | w ? | w ? | w ? | w ? ? | | | | | | | p | | | | n u];
    try (cbn; discriminate); try (destruct w; cbn; discriminate).
  - destruct p as [x|]; cbn [util.removeValuePtr]; [apply IH | cbn; discriminate].
  - cbn [util.removeValuePtr]. destruct (Value.Kind u) eqn:HK;
      try apply IH;
      unfold Value.Kind; cbn [underlying]; fold (Value.Kind u); rewrite HK; discriminate.
Qed.

Lemma removeValuePtr_fixed (t : Value) :
  Value.Kind t <> Ptr -> util.removeValuePtr t = t.
Proof.
  destruct t as [| | | | | | | | | | | | p | | | | n u]; try reflexivity.
  - intros H. exfalso. apply H. reflexivity.
  - intros H. cbn [util.removeValuePtr].
    change (Value.Kind (VNamed n u)) with (Value.Kind u) in H.
    destruct (Value.Kind u); try reflexivity. now contradiction H.
Qed.

(** X9. [removeValuePtr] follows a chain of pointers to its end: on a value
    that is no pointer it changes nothing, on a pointer it is itself
    applied to the target, its result is never a pointer (the zero Value
    for a chain that ends in nil), and applying it twice changes nothing
    more. *)
Theorem removeValuePtr_strips (t : Value) :
  Value.Kind (util.removeValuePtr t) <> Ptr
  /\ (Value.Kind t <> Ptr -> util.removeValuePtr t = t)
  /\ (forall x, Value.Kind t = Ptr -> Value.Elem t = Ok x ->
        util.removeValuePtr t = util.removeValuePtr x)
  /\ util.removeValuePtr (util.removeValuePtr t) = util.removeValuePtr t
  /\ util.removeValuePtr (VPtr (Some (VPtr None))) = VInvalid.
Proof.
  split; [apply removeValuePtr_not_ptr|]. split; [apply removeValuePtr_fixed|].
  split; [|split; [apply removeValuePtr_fixed, removeValuePtr_not_ptr | reflexivity]].
  induction t as [| | | | | | | | | | | | p | | | | n u IH]; intros x HK HE;
    try (cbn in HK; discriminate);
    try (match goal with w : IntSize |- _ => destruct w end; cbn in HK; discriminate);
    try (match goal with w : UintSize |- _ => destruct w end; cbn in HK; discriminate);
    try (match goal with w : FloatSize |- _ => destruct w end; cbn in HK; discriminate);
    try (match goal with w : ComplexSize |- _ => destruct w end; cbn in HK; discriminate).
  - destruct p as [y|]; cbn in HE; injection HE as <-; reflexivity.
  - change (Value.Kind (VNamed n u)) with (Value.Kind u) in HK.
    change (Value.Elem (VNamed n u)) with (Value.Elem u) in HE.
    cbn [util.removeValuePtr]. rewrite HK. now apply IH.
Qed.

(** ** eq *)

Lemma SFeqb_sym (a b : spec_float) : SFeqb a b = SFeqb b a.
Proof.
  unfold SFeqb. rewrite (SFcompare_swap a b).
  destruct (SFcompare a b) as [[| |]|]; reflexivity.
Qed.

Lemma Bool_eqb_sym (a b : bool) : Bool.eqb a b = Bool.eqb b a.
Proof. destruct a, b; reflexivity. Qed.

(** X10. [eq] never panics and does not depend on the order of its
    operands: both orders return the same truth value and the same error;
    with an error, which is [errBadComparisonType], the truth value is
    false. *)
Theorem eq_symmetric_total (arg1 arg2 : Value) :
  exists truth err,
    validate.eq arg1 arg2 = Ok (truth, err)
    /\ validate.eq arg2 arg1 = Ok (truth, err)
    /\ (err <> None ->
        truth = false /\ err = Some validate.errBadComparisonType).
Proof.
  unfold validate.eq.
  rewrite (indirectInterface_operand arg1), (indirectInterface_operand arg2).
  cbn [bind]. generalize (operand arg1) (operand arg2). clear. intros v1 v2.
  destruct (validate.basicKindV2 (Value.Kind v1)) as [k1 [e1|]] eqn:B1;
    destruct (validate.basicKindV2 (Value.Kind v2)) as [k2 [e2|]] eqn:B2;
    try (destruct (basicKindV2_error _ _ _ B1) as [_ ->]);
    try (destruct (basicKindV2_error _ _ _ B2) as [_ ->]);
    try (exists false, (Some validate.errBadComparisonType);
         split; [reflexivity|]; split; [reflexivity | auto]).
  apply basicKind_shape in B1. apply basicKind_shape in B2.
  destruct k1; try contradiction; destruct k2; try contradiction;
    repeat match goal with
           | H : exists _, _ |- _ => destruct H
           end;
    cbn [validate.kind_eqb negb bind];
    run_accessors;
    repeat match goal with
           | H : underlying _ = _ |- _ => rewrite !H
           end;
    cbn [bind fst snd];
    try (exists false, None; split; [reflexivity|]; split; [reflexivity|];
         intros Hcontra; now contradiction Hcontra);
    repeat match goal with
           | |- context [if ?c then _ else _] => destruct c
           end;
    cbn [bind];
    eexists; exists None; (split; [reflexivity|]);
    (split; [|intros Hcontra; now contradiction Hcontra]);
    do 2 f_equal;
    first [ reflexivity
          | apply Z.eqb_sym
          | apply String.eqb_sym
          | apply Bool_eqb_sym
          | apply SFeqb_sym
          | f_equal; apply SFeqb_sym ].
Qed.

(** ** convTypeByBaseKind *)

(** X11. [convTypeByBaseKind] converts only the pairs of its table: for any
    other pair it returns nil with [ErrConvertFail] (after [MustInt64] of an
    integer source, whose panic it lets through), so a result without error
    comes from a pair of the table.  From the string base kind to Bool or
    String it asserts that the operand is a string and panics when it is
    not; a string converted to String is returned as it is. *)
Theorem convTypeByBaseKind_table
  (mathutil_ToInt mathutil_ToInt64 : any -> Z * option string)
  (mathutil_MustInt64 : any -> result Z)
  (strutil_Bool : string -> bool * option string)
  (strutil_ToString : any -> string * option string)
  (srcVal : any) (srcKind : validate.kind) (dstType : Kind) :
  let conv := util.convTypeByBaseKind mathutil_ToInt mathutil_ToInt64
                mathutil_MustInt64 strutil_Bool strutil_ToString in
  (convertible srcKind dstType = false ->
     conv srcVal srcKind dstType = Ok (INil, Some (util.PkgErr validate.ErrConvertFail))
     \/ exists p, mathutil_MustInt64 srcVal = Panic p
                  /\ conv srcVal srcKind dstType = Panic p)
  /\ (forall x, conv srcVal srcKind dstType = Ok (x, None) ->
        convertible srcKind dstType = true)
  /\ (srcKind = validate.stringKind -> dstType = Bool \/ dstType = String ->
      isStringAny srcVal = false ->
      exists p, conv srcVal srcKind dstType = Panic p)
  /\ (forall s, conv (IVal (VString s)) validate.stringKind String
                = Ok (IVal (VString s), None)).
Proof.
  intros conv. unfold conv, util.convTypeByBaseKind. clear conv.
  split; [|split; [|split]].
  - destruct srcKind, dstType; cbn [convertible]; intros H; try discriminate H;
      try (left; reflexivity);
      destruct (mathutil_MustInt64 srcVal) as [i|p]; cbn [bind];
      first [left; reflexivity | right; exists p; split; reflexivity].
  - intros x. destruct srcKind, dstType; cbn [convertible]; intros H;
      try reflexivity; try discriminate H;
      destruct (mathutil_MustInt64 srcVal) as [i|p]; cbn [bind] in H; discriminate H.
  - intros -> Hd Hs. destruct srcVal as [|v]; [|destruct v; try discriminate Hs];
      destruct Hd as [-> | ->]; eexists; reflexivity.
  - reflexivity.
Qed.

(** ** includeElement *)

Lemma Interface_held (x : Value) :
  Value.IsValid x = true -> Value.Interface x = Ok (held x).
Proof.
  unfold Value.IsValid, Value.Interface, held, Value.Kind.
  destruct (underlying x) as [| | | | | | | | | | | | | d | | |] eqn:U;
    try reflexivity; try discriminate.
  destruct d; reflexivity.
Qed.

Section Membership.

Variable IsEqual : any -> any -> result bool.
Variable element : any.

(** The index loop over the elements from a position on, when every
    comparison returns. *)
Lemma includeElement_index_found (same : any -> bool) (lv : Value) (xs : list Value) :
  (forall x, IsEqual x element = Ok (same x)) ->
  (forall pre x rest, xs = (pre ++ x :: rest)%list ->
                      Value.Index lv (Z.of_nat (List.length pre)) = Ok x) ->
  forall rest pre,
    xs = (pre ++ rest)%list ->
    Forall (fun x => Value.IsValid x = true) rest ->
    validate.includeElement_index IsEqual (List.length rest)
      (Z.of_nat (List.length pre)) lv element
    = Ok (true, existsb (fun x => same (held x)) rest).
Proof.
  intros Hsame Hidx. induction rest as [|x rest IH]; intros pre Hxs Hvalid.
  - reflexivity.
  - cbn [List.length validate.includeElement_index existsb].
    rewrite (Hidx pre x rest Hxs). cbn [bind].
    inversion Hvalid as [|? ? Hx Hrest]; subst x0 l.
    rewrite (Interface_held x Hx). cbn [bind]. rewrite Hsame. cbn [bind].
    destruct (same (held x)); [reflexivity|]. cbn [orb].
    replace (Z.of_nat (List.length pre) + 1)
      with (Z.of_nat (List.length (pre ++ [x])%list))
      by (rewrite length_app; cbn [List.length]; lia).
    apply IH; [|exact Hrest]. rewrite Hxs, <- app_assoc. reflexivity.
Qed.

Lemma Index_at (pre : list Value) (x : Value) (rest : list Value) (lv : Value) :
  underlying lv = VSlice (Some (pre ++ x :: rest)%list)
  \/ underlying lv = VArray (pre ++ x :: rest)%list ->
  Value.Index lv (Z.of_nat (List.length pre)) = Ok x.
Proof.
  intros H. unfold Value.Index.
  assert (Hb : (0 <=? Z.of_nat (List.length pre))
               && (Z.of_nat (List.length pre)
                   <? Z.of_nat (List.length (pre ++ x :: rest)%list)) = true).
  { apply andb_true_intro. split; [apply Z.leb_le; lia|].
    apply Z.ltb_lt. rewrite length_app. cbn [List.length]. lia. }
  assert (Hn : nth (Z.to_nat (Z.of_nat (List.length pre))) (pre ++ x :: rest)%list VInvalid = x).
  { rewrite Nat2Z.id, app_nth2 by lia. now rewrite Nat.sub_diag. }
  destruct H as [-> | ->]; rewrite Hb, Hn; reflexivity.
Qed.

Lemma includeElement_keys_found (same : any -> bool) (keys : list Value) :
  (forall x, IsEqual x element = Ok (same x)) ->
  Forall (fun x => Value.IsValid x = true) keys ->
  validate.includeElement_keys IsEqual keys element
  = Ok (true, existsb (fun x => same (held x)) keys).
Proof.
  intros Hsame. induction 1 as [|k keys Hk _ IH]; [reflexivity|].
  cbn [validate.includeElement_keys existsb].
  rewrite (Interface_held k Hk). cbn [bind]. rewrite Hsame. cbn [bind].
  destruct (same (held k)); [reflexivity | exact IH].
Qed.

(** X12. When [IsEqual] returns for every candidate, [includeElement]
    supports a slice, an array and a map and finds the element exactly
    when [IsEqual] holds for some element of the slice or array, or for
    some key of the map; a nil slice or map holds nothing. *)
Theorem includeElement_finds_equal
  (same : any -> bool) (xs : list Value) (kvs : list (Value * Value)) :
  (forall x, IsEqual x element = Ok (same x)) ->
  Forall (fun x => Value.IsValid x = true) xs ->
  Forall (fun x => Value.IsValid x = true) (map fst kvs) ->
  validate.includeElement IsEqual (IVal (VSlice (Some xs))) element
  = Ok (true, existsb (fun x => same (held x)) xs)
  /\ validate.includeElement IsEqual (IVal (VArray xs)) element
     = Ok (true, existsb (fun x => same (held x)) xs)
  /\ validate.includeElement IsEqual (IVal (VMap (Some kvs))) element
     = Ok (true, existsb (fun x => same (held x)) (map fst kvs))
  /\ validate.includeElement IsEqual (IVal (VSlice None)) element = Ok (true, false)
  /\ validate.includeElement IsEqual (IVal (VMap None)) element = Ok (true, false).
Proof.
  intros Hsame Hxs Hkeys. split; [|split; [|split; [|split; reflexivity]]].
  - unfold validate.includeElement. cbn [ValueOf Value.TypeKind bind].
    change (Value.TypeKind (VSlice (Some xs))) with (Ok Slice : result Kind).
    cbn [bind]. change (Value.Len (VSlice (Some xs))) with (Ok (Z.of_nat (List.length xs))).
    cbn [bind]. rewrite Nat2Z.id.
    pose proof (includeElement_index_found same (VSlice (Some xs)) xs Hsame
               (fun pre x rest E => Index_at pre x rest (VSlice (Some xs))
                                      (or_introl (f_equal (fun l => VSlice (Some l)) E)))
               xs [] eq_refl Hxs) as HL.
    cbn [List.length Z.of_nat] in HL. rewrite HL. reflexivity.
  - unfold validate.includeElement. cbn [ValueOf].
    change (Value.TypeKind (VArray xs)) with (Ok Array : result Kind).
    cbn [bind]. change (Value.Len (VArray xs)) with (Ok (Z.of_nat (List.length xs))).
    cbn [bind]. rewrite Nat2Z.id.
    pose proof (includeElement_index_found same (VArray xs) xs Hsame
               (fun pre x rest E => Index_at pre x rest (VArray xs)
                                      (or_intror (f_equal VArray E)))
               xs [] eq_refl Hxs) as HL.
    cbn [List.length Z.of_nat] in HL. rewrite HL. reflexivity.
  - unfold validate.includeElement. cbn [ValueOf].
    change (Value.TypeKind (VMap (Some kvs))) with (Ok Map : result Kind).
    cbn [bind]. change (Value.MapKeys (VMap (Some kvs))) with (Ok (map fst kvs)).
    cbn [bind]. rewrite (includeElement_keys_found same (map fst kvs) Hsame Hkeys).
    reflexivity.
Qed.

End Membership.

Lemma includeElement_finds_equal_witness :
  validate.includeElement
    (fun x _ => Ok (match x with IVal (VInt _ 2) => true | _ => false end))
    (IVal (VSlice (Some [VInt I0 1; VInt I0 2; VInt I0 3]))) (IVal (VInt I0 2))
  = Ok (true, true)
  /\ validate.includeElement
       (fun x _ => Ok (match x with IVal (VInt _ 2) => true | _ => false end))
       (IVal (VMap (Some [(VString "a", VInt I0 2)]))) (IVal (VInt I0 2))
     = Ok (true, false).
Proof.
  pose proof (includeElement_finds_equal
                (fun x _ => Ok (match x with IVal (VInt _ 2) => true | _ => false end))
                (IVal (VInt I0 2))
                (fun x => match x with IVal (VInt _ 2) => true | _ => false end)
                [VInt I0 1; VInt I0 2; VInt I0 3]
                [(VString "a", VInt I0 2)]
                (fun x => eq_refl)
                ltac:(repeat constructor)
                ltac:(repeat constructor)) as H.
  destruct H as [H1 [_ [H3 _]]]. split; [exact H1 | exact H3].
Defined.

(** ** Substrings *)

Lemma HasPrefix_iff (s p : string) :
  strings.HasPrefix s p = true <-> exists post, s = p ++ post.
Proof.
  revert s. induction p as [|c p IH]; intros s; cbn [strings.HasPrefix].
  - split; [intros _; exists s; reflexivity | intros _; destruct s; reflexivity].
  - destruct s as [|d s].
    + split; [discriminate | intros [post H]; discriminate].
    + split.
      * intros H. apply andb_prop in H. destruct H as [Hc Hp].
        apply Ascii.eqb_eq in Hc. subst d. apply IH in Hp. destruct Hp as [post ->].
        exists post. reflexivity.
      * intros [post H]. cbn in H. injection H as <- ->.
        cbn [strings.HasPrefix]. rewrite Ascii.eqb_refl. cbn [andb]. apply IH. eauto.
Qed.

Lemma Contains_iff (s sub : string) :
  strings.Contains s sub = true <-> exists pre post, s = pre ++ sub ++ post.
Proof.
  split.
  - induction s as [|c s IH]; cbn [strings.Contains]; intros H.
    + rewrite orb_false_r in H. apply HasPrefix_iff in H. destruct H as [post ->].
      exists "", post. reflexivity.
    + apply orb_prop in H. destruct H as [H|H].
      * apply HasPrefix_iff in H. destruct H as [post ->]. exists "", post. reflexivity.
      * destruct (IH H) as [pre [post ->]]. exists (String.String c pre), post. reflexivity.
  - intros [pre [post ->]]. induction pre as [|c pre IH].
    + assert (H : strings.HasPrefix (sub ++ post) sub = true)
        by (apply HasPrefix_iff; eauto).
      cbn [String.append]. destruct (sub ++ post); cbn [strings.Contains]; now rewrite H.
    + cbn [String.append strings.Contains]. rewrite IH. apply orb_true_r.
Qed.

(** X13. On a string container [includeElement] is always supported and
    finds a string element exactly when it is a substring.  An element that
    is not a string is searched as the placeholder text of its reflect
    Value, so an integer is found in no string of digits. *)
Theorem includeElement_string_substring
  (IsEqual : any -> any -> result bool) (s sub : string) :
  exists found,
    validate.includeElement IsEqual (IVal (VString s)) (IVal (VString sub))
    = Ok (true, found)
    /\ (found = true <-> exists pre post, s = pre ++ sub ++ post)
    /\ (forall w i,
          validate.includeElement IsEqual (IVal (VString s)) (IVal (VInt w i))
          = Ok (true, strings.Contains s ("<" ++ Kind_String (IntKind w) ++ " Value>")))
    /\ validate.includeElement IsEqual (IVal (VString "12345")) (IVal (VInt I0 3))
       = Ok (true, false).
Proof.
  exists (strings.Contains s sub). split; [reflexivity|]. split; [apply Contains_iff|].
  split; [|reflexivity]. intros w i. destruct w; reflexivity.
Qed.

(** ** CallByValue *)

(** X14. [CallByValue] panics through [panicf] on a value that is no
    function, whatever the arguments.  It does not test for a nil
    function, which panics inside [Call].  For a function that is not
    variadic it runs the code exactly when the number of arguments is the
    number of parameters and every slot may be passed, and then returns
    what the code returns on the slots or passes its panic on. *)
Theorem CallByValue_outcomes
  (callee : FuncId -> list Value -> list Value + string)
  (assignable : FuncType -> nat -> Value -> bool)
  (fv : Value) (args : list any) :
  let call := validate.CallByValue callee assignable fv args in
  (Value.Kind fv <> Func ->
   call = Panic (RuntimeError "validate: parameter must be an func type"))
  /\ (forall sig, underlying fv = VFunc sig None ->
        call = Panic (RuntimeError "reflect.Value.Call: call of nil function"))
  /\ (forall sig f, underlying fv = VFunc sig (Some f) -> IsVariadic sig = false ->
        List.length args = List.length (Ins sig) ->
        assignableFrom assignable sig 0 (validate.CallByValue_in args) = true ->
        call = match callee f (validate.CallByValue_in args) with
               | inl outs => Ok outs
               | inr msg => Panic (CalleePanic msg)
               end)
  /\ (forall sig f, underlying fv = VFunc sig (Some f) -> IsVariadic sig = false ->
        List.length args <> List.length (Ins sig)
        \/ assignableFrom assignable sig 0 (validate.CallByValue_in args) = false ->
        exists msg, call = Panic (RuntimeError msg)).
Proof.
  intros call. unfold call, validate.CallByValue. clear call.
  assert (Hlen : List.length (validate.CallByValue_in args) = List.length args)
    by (rewrite CallByValue_in_map; apply length_map).
  split; [|split; [|split]].
  - intros H. destruct (Value.Kind fv); try reflexivity. now contradiction H.
  - intros sig U. kind_of U. rewrite HK. unfold Call. now rewrite U.
  - intros sig f U Hv Hn Ha. kind_of U. rewrite HK. unfold Call.
    rewrite U, Hv, Hlen, Hn, Nat.ltb_irrefl, no_invalid_slot, Ha. reflexivity.
  - intros sig f U Hv H. kind_of U. rewrite HK. unfold Call.
    rewrite U, Hv, Hlen, no_invalid_slot. cbn [negb andb].
    destruct (List.length args <? List.length (Ins sig))%nat eqn:E1; [eauto|].
    destruct (List.length (Ins sig) <? List.length args)%nat eqn:E2; [eauto|].
    destruct H as [H|H].
    + apply Nat.ltb_ge in E1, E2. lia.
    + rewrite H. cbn [negb]. eauto.
Qed.

(** ** The length of a string *)

Lemma DecodeRune_ascii (c : ascii) (r0 : string) :
  (utf8.byteZ c <? 128) = true ->
  utf8.DecodeRuneInString (String.String c r0) = (utf8.byteZ c, 1%nat).
Proof. intros H. unfold utf8.DecodeRuneInString. now rewrite H. Qed.

Lemma rangeFrom_ascii (s : string) :
  forall i, allASCII s = true ->
            List.length (utf8.rangeFrom i s) = String.length s.
Proof.
  induction s as [|c s IH]; intros i H; [reflexivity|].
  cbn [allASCII] in H. apply andb_prop in H. destruct H as [Hc Hs].
  cbn [utf8.rangeFrom]. rewrite (DecodeRune_ascii c s Hc).
  cbn [List.length String.length]. now rewrite IH.
Qed.

(** X15. The length [CalcLength] gives for a string is its number of
    runes: at most its number of bytes and at least a quarter of it, and
    exactly its number of bytes when all bytes are ASCII. *)
Theorem CalcLength_string_bounds (fmt_Sprint : any -> string) (s : string) :
  exists n,
    validate.CalcLength fmt_Sprint (IVal (VString s)) = Ok n
    /\ n <= len_string s <= 4 * n
    /\ (allASCII s = true -> n = len_string s).
Proof.
  exists (utf8.RuneCountInString s). split; [reflexivity|].
  unfold utf8.RuneCountInString, utf8.runes, utf8.range, len_string.
  rewrite length_map. split.
  - pose proof (rangeFrom_count (String.length s) s 0 (Nat.le_refl _)). lia.
  - intros H. now rewrite rangeFrom_ascii.
Qed.

(** ** Emptiness and length *)

(** X16. For a string, an array, a slice and a map [ValueIsEmpty] holds
    exactly when [ValueLen] is 0.  The two part ways elsewhere: an integer
    has a length of at least 1, also 0, which is empty; an empty channel
    that is not nil has length 0 and is not empty. *)
Theorem empty_iff_length_zero (fmt_Sprint : any -> string) (v : Value) :
  match Value.Kind v with
  | String | Array | Slice | Map =>
      exists b n, validate.ValueIsEmpty v = Ok b
                  /\ validate.ValueLen fmt_Sprint v = Ok n
                  /\ (b = true <-> n = 0)
  | _ => True
  end
  /\ (forall i, Value.Int v = Ok i -> in_int64 i ->
        exists n, validate.ValueLen fmt_Sprint v = Ok n /\ 1 <= n)
  /\ validate.ValueIsEmpty (VInt I0 0) = Ok true
  /\ validate.ValueIsEmpty (VChan (Some [])) = Ok false
  /\ validate.ValueLen fmt_Sprint (VChan (Some [])) = Ok 0.
Proof.
  split; [|split; [|repeat split; reflexivity]].
  - unfold validate.ValueLen. rewrite Indirect_pointee. unfold pointee.
    destruct (underlying v) as [| | sz ? | sz ? | sz ? | sz ? ? | s | xs | xs | kvs | | | | | | | ? ?] eqn:U;
      try (now apply underlying_not_named in U);
      try destruct sz; kind_of U; rewrite HK; cbv iota; try exact I;
      unfold validate.ValueIsEmpty; rewrite HK; cbv iota; cbn [bind];
      repeat (progress (run_accessors; rewrite ?U; cbn [bind])).
    + exists (len_string s =? 0), (utf8.RuneCountInString s).
      split; [reflexivity|]. split; [reflexivity|].
      rewrite <- RuneCount_zero. apply Z.eqb_eq.
    + exists (Z.of_nat (List.length xs) =? 0), (Z.of_nat (List.length xs)).
      split; [reflexivity|]. split; [reflexivity|]. apply Z.eqb_eq.
    + destruct xs as [xs|]; cbn.
      * exists (Z.of_nat (List.length xs) =? 0), (Z.of_nat (List.length xs)).
        split; [destruct (Z.of_nat (List.length xs) =? 0); reflexivity|].
        split; [reflexivity|]. apply Z.eqb_eq.
      * exists true, 0. repeat split.
    + destruct kvs as [kvs|]; cbn.
      * exists (Z.of_nat (List.length kvs) =? 0), (Z.of_nat (List.length kvs)).
        split; [destruct (Z.of_nat (List.length kvs) =? 0); reflexivity|].
        split; [reflexivity|]. apply Z.eqb_eq.
      * exists true, 0. repeat split.
  - intros i Hi Hr. destruct (Int_inv _ _ Hi) as [sz U].
    unfold validate.ValueLen. rewrite Indirect_pointee. unfold pointee. rewrite U.
    cbn [bind]. destruct sz; kind_of U; rewrite HK; cbv iota;
      unfold Value.Int; rewrite U; cbn [bind];
      eexists; (split; [reflexivity|]);
      unfold in_int64 in Hr;
      destruct (FormatInt_spec i ltac:(lia)) as [d [[Hd _] [_ Hlen]]];
      rewrite Hlen; destruct (i <? 0); lia.
Qed.

(** ** A panic inside includeElement *)

Lemma includeElement_index_panics
  (IsEqual : any -> any -> result bool) (element : any) (p : PanicVal)
  (lv : Value) (xs : list Value) (x : Value) (rest : list Value) :
  (forall pre y rest', xs = (pre ++ y :: rest')%list ->
                       Value.Index lv (Z.of_nat (List.length pre)) = Ok y) ->
  Value.IsValid x = true -> IsEqual (held x) element = Panic p ->
  forall mid pre,
    xs = (pre ++ mid ++ x :: rest)%list ->
    Forall (fun y => Value.IsValid y = true /\ IsEqual (held y) element = Ok false) mid ->
    validate.includeElement_index IsEqual (List.length (mid ++ x :: rest)%list)
      (Z.of_nat (List.length pre)) lv element
    = Panic p.
Proof.
  intros Hidx Hx Hp. induction mid as [|y mid IH]; intros pre Hxs Hmid.
  - cbn [app List.length validate.includeElement_index].
    rewrite (Hidx pre x rest Hxs). cbn [bind].
    rewrite (Interface_held x Hx). cbn [bind]. now rewrite Hp.
  - cbn [app List.length validate.includeElement_index].
    rewrite (Hidx pre y (mid ++ x :: rest)%list Hxs). cbn [bind].
    inversion Hmid as [|? ? [Hy Hfalse] Hrest]; subst.
    rewrite (Interface_held y Hy). cbn [bind]. rewrite Hfalse. cbn [bind].
    replace (Z.of_nat (List.length pre) + 1)
      with (Z.of_nat (List.length (pre ++ [y])%list))
      by (rewrite length_app; cbn [List.length]; lia).
    apply IH; [|exact Hrest]. rewrite <- app_assoc. reflexivity.
Qed.

(** X17. When [IsEqual] panics on an element of a slice and no earlier
    element compared equal, [includeElement] recovers and reports
    (false, false): the container counts as unsupported, whatever the
    later elements are. *)
Theorem includeElement_recovers_from_IsEqual
  (IsEqual : any -> any -> result bool) (element : any) (p : PanicVal)
  (mid : list Value) (x : Value) (rest : list Value) :
  Forall (fun y => Value.IsValid y = true /\ IsEqual (held y) element = Ok false) mid ->
  Value.IsValid x = true -> IsEqual (held x) element = Panic p ->
  validate.includeElement IsEqual (IVal (VSlice (Some (mid ++ x :: rest)%list))) element
  = Ok (false, false).
Proof.
  intros Hmid Hx Hp. unfold validate.includeElement. cbn [ValueOf].
  change (Value.TypeKind (VSlice (Some (mid ++ x :: rest)%list)))
    with (Ok Slice : result Kind).
  cbn [bind].
  change (Value.Len (VSlice (Some (mid ++ x :: rest)%list)))
    with (Ok (Z.of_nat (List.length (mid ++ x :: rest)%list))).
  cbn [bind]. rewrite Nat2Z.id.
  pose proof (includeElement_index_panics IsEqual element p
                (VSlice (Some (mid ++ x :: rest)%list)) (mid ++ x :: rest)%list x rest
                (fun pre y rest' E =>
                   Index_at pre y rest' (VSlice (Some (mid ++ x :: rest)%list))
                     (or_introl (f_equal (fun l => VSlice (Some l)) E)))
                Hx Hp mid [] eq_refl Hmid) as HL.
  cbn [List.length Z.of_nat] in HL. rewrite HL. reflexivity.
Qed.

Lemma includeElement_recovers_from_IsEqual_witness :
  validate.includeElement
    (fun y e => match y, e with
                | IVal (VInt _ a), IVal (VInt _ b) => Ok (a =? b)
                | _, _ => Panic (CalleePanic "incomparable")
                end)
    (IVal (VSlice (Some [VInt I0 1; VString "two"; VInt I0 3]))) (IVal (VInt I0 3))
  = Ok (false, false).
Proof.
  apply (includeElement_recovers_from_IsEqual
           (fun y e => match y, e with
                       | IVal (VInt _ a), IVal (VInt _ b) => Ok (a =? b)
                       | _, _ => Panic (CalleePanic "incomparable")
                       end)
           (IVal (VInt I0 3)) (CalleePanic "incomparable")
           [VInt I0 1] (VString "two") [VInt I0 3]).
  - repeat constructor.
  - reflexivity.
  - reflexivity.
Defined.
